(** * MatchMy-Resume: text extraction, analysis request and score display

    A shallow embedding of the logic of
      - src/App.jsx                 (FileUpload, AnalysisResults, App),
      - the drag-and-drop FileUpload.jsx,
      - ATSCompatibility.jsx and ScoreBreakdown.jsx,
    followed by the properties established about it.

    Conventions of the embedding.
    - A JavaScript string is a [string]: a sequence of code units, here
      restricted to the range 0..255.  [String.length] is [.length].
    - A JavaScript number is an IEEE-754 binary64 value, [spec_float].
    - React state is a record; a setter call is a record update, in program
      order.  An [await] is sequential composition.
    - A thrown value is an [Exn]; a computation returns [Ok v] or [Throw e]
      together with the new state.
    - [console.error] has no effect on the state and is left out. *)

From Stdlib Require Import ZArith List String Ascii Bool Lia Arith.
From Stdlib Require Import Floats.SpecFloat DecimalString.
Import ListNotations.
Open Scope string_scope.

Set Implicit Arguments.
Set Warnings "-register-all".

(* ================================================================== *)
(** ** JavaScript numbers *)

Module Num.

Definition number := spec_float.

Definition prec : Z := 53.
Definition emax : Z := 1024.

(** The double nearest to an integer literal. *)
Definition of_Z (z : Z) : number := binary_normalize prec emax z 0 false.

Definition zero    : number := S754_zero false.
Definition one     : number := Eval cbv in of_Z 1.
Definition hundred : number := Eval cbv in of_Z 100.
Definition NaN     : number := S754_nan.

(** [Number.isNaN] on a number. *)
Definition isNaN (x : number) : bool :=
  match x with S754_nan => true | _ => false end.

Definition is_zero (x : number) : bool :=
  match x with S754_zero _ => true | _ => false end.

(** [x < y], [x <= y], [x > y], [x >= y] on numbers. *)
Definition lt (x y : number) : bool := SFltb x y.
Definition le (x y : number) : bool := SFleb x y.
Definition gt (x y : number) : bool := SFltb y x.
Definition ge (x y : number) : bool := SFleb y x.

(** [Math.max] and [Math.min] of two numbers: NaN if either is NaN;
    +0 is larger than -0. *)
Definition Math_max (x y : number) : number :=
  if isNaN x || isNaN y then NaN
  else if lt x y then y
  else if lt y x then x
  else match x, y with
       | S754_zero sx, S754_zero sy => S754_zero (sx && sy)
       | _, _ => x
       end.

Definition Math_min (x y : number) : number :=
  if isNaN x || isNaN y then NaN
  else if lt x y then x
  else if lt y x then y
  else match x, y with
       | S754_zero sx, S754_zero sy => S754_zero (sx || sy)
       | _, _ => x
       end.

(** [Math.min(Math.max(x, 0), 100)], the clamp both score components use. *)
Definition clamp_0_100 (x : number) : number :=
  Math_min (Math_max x zero) hundred.

(** A number lies within 0..100. *)
Definition in_0_100 (x : number) : Prop :=
  le zero x = true /\ le x hundred = true.

(** [x * y]. *)
Definition mul (x y : number) : number := SFmul prec emax x y.

(** [Math.pow(2, i)] for a loop index [i]: the power of two itself while
    it is finite, Infinity from [i = 1024] on. *)
Definition pow2 (i : nat) : number := of_Z (2 ^ Z.of_nat i).

(** The integer part of a finite number; 0 for NaN and the infinities. *)
Definition integer_part (x : number) : Z :=
  match x with
  | S754_finite s m e =>
      let v := if (0 <=? e)%Z then (Zpos m * 2 ^ e)%Z
               else (Zpos m / 2 ^ (- e))%Z in
      if s then (- v)%Z else v
  | _ => 0%Z
  end.

(** The conversion of a number to a Web IDL [long]: its integer part
    modulo 2^32, read as a signed 32-bit integer. *)
Definition to_long (x : number) : Z :=
  let r := (integer_part x mod 2 ^ 32)%Z in
  if (2 ^ 31 <=? r)%Z then (r - 2 ^ 32)%Z else r.

End Num.

(* ================================================================== *)
(** ** JavaScript strings *)

Module Str.

Definition is_upper (c : ascii) : bool :=
  let n := nat_of_ascii c in
  (((65 <=? n) && (n <=? 90))
   || ((192 <=? n) && (n <=? 222) && negb (n =? 215)))%nat.

Definition lower_unit (c : ascii) : ascii :=
  if is_upper c then ascii_of_nat (nat_of_ascii c + 32) else c.

(** [s.toLowerCase()], on code units below 256. *)
Fixpoint toLowerCase (s : string) : string :=
  match s with
  | EmptyString => EmptyString
  | String c r => String (lower_unit c) (toLowerCase r)
  end.

(** [s.endsWith(suffix)]. *)
Definition endsWith (s suffix : string) : bool :=
  let n := String.length s in
  let m := String.length suffix in
  (m <=? n)%nat && String.eqb (String.substring (n - m) m s) suffix.

(** [s.substring(start, end)]: both indices are clamped to [0, length]
    and swapped when start > end. *)
Definition substring (s : string) (start end_ : Z) : string :=
  let len := Z.of_nat (String.length s) in
  let a := Z.min (Z.max start 0) len in
  let b := Z.min (Z.max end_ 0) len in
  let from := Z.min a b in
  let to := Z.max a b in
  String.substring (Z.to_nat from) (Z.to_nat (to - from)) s.

(** White space and line terminators removed by [trim], below 256:
    TAB, LF, VT, FF, CR, SPACE, NBSP. *)
Definition is_space (c : ascii) : bool :=
  let n := nat_of_ascii c in
  (((9 <=? n) && (n <=? 13)) || (n =? 32) || (n =? 160))%nat.

Fixpoint trimStart (s : string) : string :=
  match s with
  | EmptyString => EmptyString
  | String c r => if is_space c then trimStart r else s
  end.

Fixpoint trimEnd (s : string) : string :=
  match s with
  | EmptyString => EmptyString
  | String c r =>
      match trimEnd r with
      | EmptyString => if is_space c then EmptyString else String c EmptyString
      | r' => String c r'
      end
  end.

(** [s.trim()]. *)
Definition trim (s : string) : string := trimStart (trimEnd s).

(** [arr.join(sep)] on an array of strings. *)
Fixpoint join (sep : string) (l : list string) : string :=
  match l with
  | [] => ""
  | [x] => x
  | x :: r => x ++ sep ++ join sep r
  end.

Definition LF : string := String (ascii_of_nat 10) EmptyString.

(** Decimal text of a natural number, as a template literal prints it. *)
Definition of_nat (n : nat) : string := NilZero.string_of_uint (Nat.to_uint n).

Definition is_empty (s : string) : bool :=
  match s with EmptyString => true | _ => false end.

(** [s.indexOf(pattern)]: the position of the first occurrence. *)
Definition indexOf (s pattern : string) : option nat := String.index 0 pattern s.

(** GetSubstitution for a string pattern, which has no captures: in the
    replacement text [$$] stands for a dollar sign, [$&] for the matched
    text, [$`] for the text before the match and [$'] for the text after
    it; any other character, a lone dollar sign included, stands for
    itself. *)
Fixpoint expand (template matched before after : string) : string :=
  match template with
  | EmptyString => EmptyString
  | String a rest =>
      match rest with
      | String b rest' =>
          if Ascii.eqb a "$" then
            if Ascii.eqb b "$" then String "$" (expand rest' matched before after)
            else if Ascii.eqb b "&" then matched ++ expand rest' matched before after
            else if Ascii.eqb b "`" then before ++ expand rest' matched before after
            else if Ascii.eqb b "'" then after ++ expand rest' matched before after
            else String a (expand rest matched before after)
          else String a (expand rest matched before after)
      | EmptyString => String a EmptyString
      end
  end.

(** [s.replace(pattern, template)] for a string pattern: the first
    occurrence only. *)
Definition replace (s pattern template : string) : string :=
  match indexOf s pattern with
  | None => s
  | Some pos =>
      let tail := pos + String.length pattern in
      let before := String.substring 0 pos s in
      let after := String.substring tail (String.length s - tail) s in
      before ++ expand template pattern before after ++ after
  end.

End Str.

(* ================================================================== *)
(** ** JavaScript values, thrown values and results *)

(** Values that JSON can carry, plus [undefined].  An object keeps its
    properties as an association list, in insertion order. *)
Inductive JValue : Type :=
| VUndefined
| VNull
| VBool (b : bool)
| VNum (n : Num.number)
| VStr (s : string)
| VArr (elems : list JValue)
| VObj (props : list (string * JValue)).

(** A thrown object: its constructor name and its [message]. *)
Record Exn : Type := mkExn { exn_name : string; message : string }.

(** [new Error(msg)]. *)
Definition Error (msg : string) : Exn := mkExn "Error" msg.

Inductive Result (A : Type) : Type :=
| Ok (a : A)
| Throw (e : Exn).
Arguments Ok {A} a.
Arguments Throw {A} e.

(** The results of a list of steps run in order: the values, or the first
    thrown value. *)
Fixpoint sequence {A : Type} (l : list (Result A)) : Result (list A) :=
  match l with
  | [] => Ok []
  | Throw e :: _ => Throw e
  | Ok a :: r =>
      match sequence r with
      | Ok r' => Ok (a :: r')
      | Throw e => Throw e
      end
  end.

Module Js.

(** [typeof v]. *)
Definition typeof (v : JValue) : string :=
  match v with
  | VUndefined => "undefined"
  | VNull => "object"
  | VBool _ => "boolean"
  | VNum _ => "number"
  | VStr _ => "string"
  | VArr _ => "object"
  | VObj _ => "object"
  end.

(** ToBoolean: what [if (v)], [!v] and [v || d] test. *)
Definition truthy (v : JValue) : bool :=
  match v with
  | VUndefined | VNull => false
  | VBool b => b
  | VNum n => negb (Num.isNaN n || Num.is_zero n)
  | VStr s => negb (Str.is_empty s)
  | VArr _ | VObj _ => true
  end.

(** [a || b]. *)
Definition or_else (a b : JValue) : JValue := if truthy a then a else b.

Fixpoint lookup (k : string) (props : list (string * JValue)) : JValue :=
  match props with
  | [] => VUndefined
  | (k', v) :: r => if String.eqb k k' then v else lookup k r
  end.

(** [v?.name] for a property name that is neither an index nor a member
    of a prototype ([candidates], [content], [parts], [text],
    [matchPercentage], [skills], ...): the own property of an object,
    [undefined] on anything else. *)
Definition get (v : JValue) (name : string) : JValue :=
  match v with
  | VObj props => lookup name props
  | _ => VUndefined
  end.

(** [v?.[0]]. *)
Definition get0 (v : JValue) : JValue :=
  match v with
  | VObj props => lookup "0" props
  | VArr (x :: _) => x
  | VStr (String c _) => VStr (String c EmptyString)
  | _ => VUndefined
  end.

Definition nullish (v : JValue) : bool :=
  match v with VUndefined | VNull => true | _ => false end.

(** Whether an object has an own property of that name. *)
Definition has_own (name : string) (props : list (string * JValue)) : bool :=
  existsb (fun p => String.eqb name (fst p)) props.

(** The TypeError of ToPrimitive when neither [valueOf] nor [toString]
    gives a primitive; the wording is the engine's (here V8's). *)
Definition not_primitive : Exn :=
  mkExn "TypeError" "Cannot convert object to primitive value".

(** The TypeError raised by reading a property of [undefined] or [null];
    the wording is the engine's (here V8's). *)
Definition read_of_nullish (v : JValue) (name : string) : Exn :=
  mkExn "TypeError"
    ("Cannot read properties of "
     ++ match v with VNull => "null" | _ => "undefined" end
     ++ " (reading '" ++ name ++ "')").

(** [v.name] without optional chaining. *)
Definition get_strict (v : JValue) (name : string) : Result JValue :=
  if nullish v then Throw (read_of_nullish v name) else Ok (get v name).

End Js.

(* ================================================================== *)
(** ** State and exceptions *)

(** A computation over a state [S]: a result or a thrown value, and the
    state it leaves. *)
Definition M (S A : Type) : Type := S -> Result A * S.

Definition ret {S A} (a : A) : M S A := fun s => (Ok a, s).

Definition throw {S A} (e : Exn) : M S A := fun s => (Throw e, s).

Definition bind {S A B} (c : M S A) (k : A -> M S B) : M S B :=
  fun s =>
    match c s with
    | (Ok a, s') => k a s'
    | (Throw e, s') => (Throw e, s')
    end.

(** [try { c } catch (e) { h e }]. *)
Definition try_catch {S A} (c : M S A) (h : Exn -> M S A) : M S A :=
  fun s =>
    match c s with
    | (Ok a, s') => (Ok a, s')
    | (Throw e, s') => h e s'
    end.

(** [try { c } finally { f }], for a [finally] block that does not throw
    or return. *)
Definition finally {S A} (c : M S A) (f : S -> S) : M S A :=
  fun s => let (r, s') := c s in (r, f s').

Definition modify {S} (f : S -> S) : M S unit := fun s => (Ok tt, f s).

(** A result that involves no state: the outcome of a platform call. *)
Definition lift {S A} (r : Result A) : M S A := fun s => (r, s).

Declare Scope js_scope.
Delimit Scope js_scope with js.
Notation "x <- c ;; k" := (bind c (fun x => k))
  (at level 61, c at next level, right associativity) : js_scope.
Notation "c ;; k" := (bind c (fun _ => k))
  (at level 61, right associativity) : js_scope.

(* ================================================================== *)
(** ** The platform: browser, pdf.js, network, build environment *)

Record File : Type := mkFile {
  file_name : string;
  file_type : string;
  file_data : list Byte.byte
}.

(** pdf.js objects. *)
Record TextItem : Type := mkItem { str : string }.
Record TextContent : Type := mkContent { items : list TextItem }.
Record PdfPage : Type := mkPage { getTextContent : Result TextContent }.
Record PdfDocument : Type := mkPdf {
  numPages : nat;
  getPage : nat -> Result PdfPage
}.

(** The request of the analysis call.  [body] is the payload object that
    [JSON.stringify] serialises; its [generationConfig] (temperature 0.1,
    the response schema) is constant and kept by its MIME type only. *)
Record Payload : Type := mkPayload {
  contents_text : string;
  responseMimeType : string
}.

Record RequestInit : Type := mkRequest {
  method : string;
  headers : list (string * string);
  body : Payload
}.

(** What [await fetch(url, options)] gives: a rejection, or a response
    with its status and what [response.json()] settles to. *)
Record Response : Type := mkResponse {
  status : nat;
  json : Result JValue
}.

Inductive FetchOutcome : Type :=
| Rejected (e : Exn)
| Responded (r : Response).

(** [response.ok]: the status is in the range 200-299. *)
Definition response_ok (r : Response) : bool :=
  ((200 <=? status r) && (status r <=? 299))%nat.

Class Platform : Type := {
  (** [JSON.parse]: the value, or the SyntaxError it throws. *)
  JSON_parse : string -> Result JValue;
  (** ToNumber and ToString between strings and numbers. *)
  StringToNumber : string -> Num.number;
  NumberToString : Num.number -> string;
  (** [FileReader]: [Some] is the result passed to [onload], [None] is
      [onerror]. *)
  readAsText : File -> option string;
  readAsArrayBuffer : File -> option (list Byte.byte);
  (** [file.arrayBuffer()]. *)
  file_arrayBuffer : File -> Result (list Byte.byte);
  (** [pdfjsLib.getDocument({ data }).promise]. *)
  getDocument : list Byte.byte -> Result PdfDocument;
  (** [fetch]: the outcome of the call made after [n] earlier calls. *)
  fetch : nat -> string -> RequestInit -> FetchOutcome;
  (** [import.meta.env.VITE_GEMINI_API_KEY]; [None] is [undefined]. *)
  VITE_GEMINI_API_KEY : option string
}.

Module Conv.
Section WithPlatform.
Context {P : Platform}.

(** ToString.  An object parsed from JSON inherits [toString] from
    [Object.prototype] unless it has an own property of that name; an own
    property is never callable, and then ToPrimitive finds no method that
    gives a primitive and throws.  An array is joined by commas, [null]
    and [undefined] elements counting as empty. *)
Fixpoint ToString (v : JValue) : Result string :=
  match v with
  | VUndefined => Ok "undefined"
  | VNull => Ok "null"
  | VBool true => Ok "true"
  | VBool false => Ok "false"
  | VNum n => Ok (NumberToString n)
  | VStr s => Ok s
  | VArr l =>
      match sequence
              (map (fun e => if Js.nullish e then Ok "" else ToString e) l) with
      | Ok parts => Ok (Str.join "," parts)
      | Throw e => Throw e
      end
  | VObj props =>
      if Js.has_own "toString" props then Throw Js.not_primitive
      else Ok "[object Object]"
  end.

(** ToNumber, which is [Number(v)].  An object goes through ToPrimitive
    as for ToString; the text [[object Object]] is not a number. *)
Definition ToNumber (v : JValue) : Result Num.number :=
  match v with
  | VUndefined => Ok Num.NaN
  | VNull => Ok Num.zero
  | VBool true => Ok Num.one
  | VBool false => Ok Num.zero
  | VNum n => Ok n
  | VStr s => Ok (StringToNumber s)
  | VArr _ =>
      match ToString v with
      | Ok s => Ok (StringToNumber s)
      | Throw e => Throw e
      end
  | VObj props =>
      if Js.has_own "toString" props then Throw Js.not_primitive
      else Ok Num.NaN
  end.

End WithPlatform.
End Conv.

(* ================================================================== *)
(** ** src/App.jsx: the App component *)

Module App.

(** The [useState] cells of [App]. *)
Record State : Type := mkState {
  resumeText : string;
  jobDescription : string;
  analysis : JValue;
  loading : bool;
  apiError : string;
  originalResumeText : string
}.

(** [useState] initial values. *)
Definition initial : State := mkState "" "" VNull false "" "".

Definition setResumeText (v : string) (s : State) : State :=
  mkState v (jobDescription s) (analysis s) (loading s) (apiError s)
          (originalResumeText s).
Definition setJobDescription (v : string) (s : State) : State :=
  mkState (resumeText s) v (analysis s) (loading s) (apiError s)
          (originalResumeText s).
Definition setAnalysis (v : JValue) (s : State) : State :=
  mkState (resumeText s) (jobDescription s) v (loading s) (apiError s)
          (originalResumeText s).
Definition setLoading (v : bool) (s : State) : State :=
  mkState (resumeText s) (jobDescription s) (analysis s) v (apiError s)
          (originalResumeText s).
Definition setApiError (v : string) (s : State) : State :=
  mkState (resumeText s) (jobDescription s) (analysis s) (loading s) v
          (originalResumeText s).
Definition setOriginalResumeText (v : string) (s : State) : State :=
  mkState (resumeText s) (jobDescription s) (analysis s) (loading s)
          (apiError s) v.

(** What the component does to the outside: network calls and timers,
    a timer with the milliseconds it waits. *)
Inductive Event : Type :=
| EFetch (url : string) (options : RequestInit)
| ESleep (ms : Z).

(** The wait of [setTimeout(resolve, delay)] in milliseconds: the browser
    converts the delay to a Web IDL [long] and takes a negative value
    as 0. *)
Definition timer_ms (delay : Num.number) : Z := Z.max 0 (Num.to_long delay).

(** [Math.pow(2, i) * 1000]. *)
Definition backoff (i : nat) : Num.number :=
  Num.mul (Num.pow2 i) (Num.of_Z 1000).

(** The milliseconds waited after the failed attempt [i]. *)
Definition wait_ms (i : nat) : Z := timer_ms (backoff i).

Record World : Type := mkWorld {
  state : State;
  trace : list Event
}.

Definition is_fetch (e : Event) : bool :=
  match e with EFetch _ _ => true | ESleep _ => false end.

(** Number of network calls in a trace. *)
Definition fetches (t : list Event) : nat := List.length (filter is_fetch t).

Definition log (e : Event) (w : World) : World :=
  mkWorld (state w) (trace w ++ [e]).

Definition upd (f : State -> State) (w : World) : World :=
  mkWorld (f (state w)) (trace w).

Section WithPlatform.
Context {P : Platform}.
Local Open Scope js_scope.

(** [await fetch(url, options)]. *)
Definition do_fetch (url : string) (options : RequestInit) : M World Response :=
  fun w =>
    let w' := log (EFetch url options) w in
    match fetch (fetches (trace w)) url options with
    | Rejected e => (Throw e, w')
    | Responded r => (Ok r, w')
    end.

(** [await new Promise((resolve) => setTimeout(resolve, delay))]. *)
Definition sleep (delay : Num.number) : M World unit :=
  modify (log (ESleep (timer_ms delay))).

(** The [try] block of one iteration, up to the [return]. *)
Definition attempt (url : string) (options : RequestInit) : M World Response :=
  response <- do_fetch url options ;;
  if negb (response_ok response)
  then throw (Error ("HTTP error! status: " ++ Str.of_nat (status response)))
  else ret response.

(** The [for] loop of [fetchWithRetry], from index [i], with
    [fuel = retries - i] iterations left.  [return response.json()] is
    not awaited inside the [try]: its rejection leaves the function. *)
Fixpoint retry_loop (fuel i retries : nat) (url : string)
         (options : RequestInit) : M World JValue :=
  match fuel with
  | O => ret VUndefined
  | S fuel' =>
      r <- try_catch (response <- attempt url options ;; ret (inl response))
                     (fun error => ret (inr error)) ;;
      match r with
      | inl response => lift (json response)
      | inr error =>
          if (i <? retries - 1)%nat
          then sleep (backoff i) ;;
               retry_loop fuel' (S i) retries url options
          else throw error
      end
  end.

Definition fetchWithRetry (url : string) (options : RequestInit)
           (retries : nat) : M World JValue :=
  retry_loop retries 0 retries url options.

(** The default of the [retries] parameter. *)
Definition default_retries : nat := 3.

Definition invalid_or_empty : string :=
  "API returned an invalid or empty structured response.".

(** The [try] block of [extractJSON]. *)
Definition extractJSON_try (apiResponse : JValue) : Result JValue :=
  match Js.get_strict apiResponse "candidates" with
  | Throw e => Throw e
  | Ok candidates =>
      let candidate := Js.get0 candidates in
      let jsonText :=
        Js.get (Js.get0 (Js.get (Js.get candidate "content") "parts")) "text" in
      if Js.truthy jsonText then
        match Conv.ToString jsonText with
        | Throw e => Throw e
        | Ok text =>
            match JSON_parse text with
            | Throw e => Throw e
            | Ok parsed =>
                if Js.truthy parsed && String.eqb (Js.typeof parsed) "object"
                then Ok parsed
                else Throw (Error invalid_or_empty)
            end
        end
      else Throw (Error invalid_or_empty)
  end.

Definition extractJSON (apiResponse : JValue) : Result JValue :=
  match extractJSON_try apiResponse with
  | Ok parsed => Ok parsed
  | Throw e => Throw (Error ("Failed to process analysis: " ++ message e))
  end.

Definition prompt_head : string :=
  "ANALYSIS REQUEST:" ++ Str.LF ++
  "You are a professional resume analyzer. Analyze the provided RESUME against the JOB DESCRIPTION."
  ++ Str.LF ++ Str.LF ++
  "TASK: Calculate all scores and provide detailed feedback exactly according to the requested JSON schema."
  ++ Str.LF ++ Str.LF ++
  "RESUME:" ++ Str.LF.

Definition prompt_mid : string :=
  Str.LF ++ Str.LF ++ "JOB DESCRIPTION:" ++ Str.LF.

(** The template literal [prompt]. *)
Definition prompt (resume job : string) : string :=
  prompt_head ++ Str.substring resume 0 10000
  ++ prompt_mid ++ Str.substring job 0 5000.

Definition payload (resume job : string) : Payload :=
  mkPayload (prompt resume job) "application/json".

Definition apiUrl (apiKey : string) : string :=
  "https://generativelanguage.googleapis.com/v1beta/models/gemini-2.5-flash-preview-09-2025:generateContent?key="
  ++ apiKey.

Definition request (resume job : string) : RequestInit :=
  mkRequest "POST" [("Content-Type", "application/json")] (payload resume job).

Definition missing_key : string :=
  "Gemini API key is missing. Set VITE_GEMINI_API_KEY in your .env.local file.".

Definition missing_matchPercentage : string :=
  "Invalid analysis format received - missing matchPercentage".

(** The [try] block of [analyzeResume]. *)
Definition analyze_try (resume job : string) : M World unit :=
  let options := request resume job in
  apiKey <- match VITE_GEMINI_API_KEY with
            | Some k => if Str.is_empty k then throw (Error missing_key) else ret k
            | None => throw (Error missing_key)
            end ;;
  result <- fetchWithRetry (apiUrl apiKey) options default_retries ;;
  parsed <- lift (extractJSON result) ;;
  if negb (String.eqb (Js.typeof (Js.get parsed "matchPercentage")) "number")
  then throw (Error missing_matchPercentage)
  else modify (upd (setAnalysis parsed)).

Definition analysis_failed (error : Exn) : string :=
  "Analysis failed: " ++ message error
  ++ ". Please try again with different content.".

Definition analyzeResume : M World unit :=
  fun w =>
    let resume := resumeText (state w) in
    let job := jobDescription (state w) in
    if Str.is_empty resume || Str.is_empty job then (Ok tt, w)
    else
      (modify (upd (setLoading true)) ;;
       modify (upd (setAnalysis VNull)) ;;
       modify (upd (setApiError "")) ;;
       modify (upd (setOriginalResumeText resume)) ;;
       finally
         (try_catch (analyze_try resume job)
                    (fun error => modify (upd (setApiError (analysis_failed error)))))
         (upd (setLoading false))) w.

(** The [onTextExtracted] prop that [App] gives to [FileUpload]. *)
Definition onTextExtracted (text : string) (s : State) : State :=
  setOriginalResumeText text (setResumeText text s).

(** The [disabled] attribute of the Analyze button. *)
Definition analyze_disabled (s : State) : bool :=
  loading s || Str.is_empty (resumeText s) || Str.is_empty (jobDescription s).

End WithPlatform.
End App.

(* ================================================================== *)
(** ** src/App.jsx: the AnalysisResults component *)

Module AnalysisResults.

(** The values the report puts on screen. *)
Record Report : Type := mkReport {
  shown_matchPercentage : JValue;
  shown_atsScore : JValue;
  shown_keywords : JValue;
  shown_experience : JValue;
  shown_skills : JValue;
  shown_education : JValue;
  shown_summary : JValue;
  shown_strengths : list JValue;
  shown_weaknesses : list JValue;
  shown_missingKeywords : list JValue;
  shown_keyChanges : list JValue;
  feedback_skills : list JValue;
  feedback_experience : list JValue;
  feedback_education : list JValue
}.

Inductive Rendered : Type :=
| Spinner          (* loading *)
| AwaitingInput    (* !hasData *)
| ClickAnalyze     (* !analysis *)
| Shown (r : Report).

(** A destructuring default [{ name = d }]: used when the property is
    [undefined]. *)
Definition with_default (v d : JValue) : JValue :=
  match v with VUndefined => d | _ => v end.

(** [Array.isArray(x) ? x : []]. *)
Definition array_or_empty (v : JValue) : list JValue :=
  match v with VArr l => l | _ => [] end.

(** React accepts numbers, strings, booleans, null, undefined and arrays
    of these as children, and throws on a plain object. *)
Fixpoint renderable (v : JValue) : bool :=
  match v with
  | VObj _ => false
  | VArr l => forallb renderable l
  | _ => true
  end.

Definition not_a_child : Exn :=
  Error "Objects are not valid as a React child".

Definition not_a_function (what : string) : Exn :=
  mkExn "TypeError" (what ++ " is not a function").

Section WithPlatform.
Context {P : Platform}.

(** [missingKeywords.length > 0 ? missingKeywords.map(...) : <p>...</p>]:
    the keywords listed. *)
Definition missing_list (missingKeywords : JValue) : Result (list JValue) :=
  match missingKeywords with
  | VUndefined | VNull => Throw (Js.read_of_nullish missingKeywords "length")
  | VArr l => Ok l
  | VStr s =>
      if Str.is_empty s then Ok []
      else Throw (not_a_function "missingKeywords.map")
  | VObj props =>
      match Conv.ToNumber (Js.lookup "length" props) with
      | Throw e => Throw e
      | Ok len =>
          if Num.gt len Num.zero
          then Throw (not_a_function "missingKeywords.map")
          else Ok []
      end
  | VBool _ | VNum _ => Ok []
  end.

Definition AnalysisResults (analysis_ : JValue) (loading_ hasData : bool)
  : Result Rendered :=
  if loading_ then Ok Spinner
  else if negb hasData then Ok AwaitingInput
  else if negb (Js.truthy analysis_) then Ok ClickAnalyze
  else
    let a := Js.or_else analysis_ (VObj []) in
    let matchPercentage := with_default (Js.get a "matchPercentage") (VNum Num.zero) in
    let atsScore := with_default (Js.get a "atsScore") (VNum Num.zero) in
    let scoreBreakdown := with_default (Js.get a "scoreBreakdown") (VObj []) in
    let missingKeywords := with_default (Js.get a "missingKeywords") (VArr []) in
    let sectionFeedback := with_default (Js.get a "sectionFeedback") (VObj []) in
    let strengths := with_default (Js.get a "strengths") (VArr []) in
    let weaknesses := with_default (Js.get a "weaknesses") (VArr []) in
    let keyChanges := with_default (Js.get a "keyChanges") (VArr []) in
    let summary := with_default (Js.get a "summary") (VStr "") in
    match missing_list missingKeywords with
    | Throw e => Throw e
    | Ok missing =>
        let r :=
          mkReport matchPercentage atsScore
            (Js.or_else (Js.get scoreBreakdown "keywords") (VNum Num.zero))
            (Js.or_else (Js.get scoreBreakdown "experience") (VNum Num.zero))
            (Js.or_else (Js.get scoreBreakdown "skills") (VNum Num.zero))
            (Js.or_else (Js.get scoreBreakdown "education") (VNum Num.zero))
            summary
            (array_or_empty strengths)
            (array_or_empty weaknesses)
            missing
            (array_or_empty keyChanges)
            (array_or_empty (Js.get sectionFeedback "skills"))
            (array_or_empty (Js.get sectionFeedback "experience"))
            (array_or_empty (Js.get sectionFeedback "education")) in
        let children :=
          ([shown_matchPercentage r; shown_atsScore r; shown_keywords r;
            shown_experience r; shown_skills r; shown_education r;
            shown_summary r]
           ++ shown_strengths r ++ shown_weaknesses r
           ++ shown_missingKeywords r ++ shown_keyChanges r
           ++ feedback_skills r ++ feedback_experience r
           ++ feedback_education r)%list in
        if forallb renderable children then Ok (Shown r) else Throw not_a_child
    end.

(** The props [App] passes: [hasData = !!resumeText && !!jobDescription]. *)
Definition of_state (s : App.State) : Result Rendered :=
  AnalysisResults (App.analysis s) (App.loading s)
    (negb (Str.is_empty (App.resumeText s))
     && negb (Str.is_empty (App.jobDescription s))).

Definition green : string := "#10B981".
Definition amber : string := "#F59E0B".
Definition red : string := "#EF4444".

(** The colour of the overall score and of a [BreakdownItem]:
    [score >= 75 ? green : score >= 50 ? amber : red]. *)
Definition score_colour (score : JValue) : Result string :=
  match Conv.ToNumber score with
  | Throw e => Throw e
  | Ok n =>
      Ok (if Num.ge n (Num.of_Z 75) then green
          else if Num.ge n (Num.of_Z 50) then amber
          else red)
  end.

End WithPlatform.
End AnalysisResults.

(* ================================================================== *)
(** ** ScoreBreakdown.jsx *)

Module ScoreBreakdown.
Section WithPlatform.
Context {P : Platform}.

Definition getSafeScore (breakdown : JValue) (name : string)
  : Result Num.number :=
  if negb (Js.truthy breakdown)
     || negb (String.eqb (Js.typeof breakdown) "object")
  then Ok Num.zero
  else
    let raw := Js.get breakdown name in
    match (if String.eqb (Js.typeof raw) "number"
           then Ok (match raw with VNum n => n | _ => Num.NaN end)
           else Conv.ToNumber raw) with
    | Throw e => Throw e
    | Ok num =>
        if Num.isNaN num then Ok Num.zero
        else Ok (Num.clamp_0_100 num)
    end.

(** The four rows of the component. *)
Definition sections : list string :=
  ["skills"; "experience"; "education"; "keywords"].

Definition shown_scores (breakdown : JValue) : Result (list Num.number) :=
  sequence (map (getSafeScore breakdown) sections).

Definition getBarColor (score : Num.number) : string :=
  if Num.gt score (Num.of_Z 75) then "#10B981"
  else if Num.gt score (Num.of_Z 50) then "#3B82F6"
  else "#EF4444".

End WithPlatform.
End ScoreBreakdown.

(* ================================================================== *)
(** ** ATSCompatibility.jsx *)

Module ATSCompatibility.

(** [normalizedScore]; [None] is [null], shown as N/A. *)
Definition normalizedScore (score : JValue) : option Num.number :=
  match score with
  | VNum n => if negb (Num.isNaN n) then Some (Num.clamp_0_100 n) else None
  | _ => None
  end.

Definition getATSStatus (val : option Num.number) : string :=
  match val with
  | None => "Not available"
  | Some v =>
      if Num.ge v (Num.of_Z 80) then "Excellent"
      else if Num.ge v (Num.of_Z 60) then "Good"
      else if Num.ge v (Num.of_Z 40) then "Fair"
      else "Poor"
  end.

Definition getATSScoreColor (val : option Num.number) : string :=
  match val with
  | None => "text-gray-500 bg-gray-100"
  | Some v =>
      if Num.ge v (Num.of_Z 80) then "text-green-600 bg-green-50"
      else if Num.ge v (Num.of_Z 60) then "text-blue-600 bg-blue-50"
      else "text-red-600 bg-red-50"
  end.

(** The remark after the status; there is none without a score. *)
Definition screening_note (val : option Num.number) : option string :=
  match val with
  | None => None
  | Some v =>
      Some (if Num.ge v (Num.of_Z 60) then "Likely to pass screening"
            else "May have issues with scanners")
  end.

End ATSCompatibility.

(* ================================================================== *)
(** ** src/App.jsx: the FileUpload component *)

Module Upload.

Record State : Type := mkState {
  isUploading : bool;
  error : option string
}.

(** The component, with the caller's side of [onTextExtracted]: the
    caller stores the text it is given and passes it back as the [text]
    prop, as [App] does; [signals] lists the arguments of the calls. *)
Record World : Type := mkWorld {
  state : State;
  text : string;
  signals : list string;
  input_reset : bool
}.

Definition setError (v : option string) (w : World) : World :=
  mkWorld (mkState (isUploading (state w)) v) (text w) (signals w) (input_reset w).
Definition setIsUploading (v : bool) (w : World) : World :=
  mkWorld (mkState v (error (state w))) (text w) (signals w) (input_reset w).
Definition onTextExtracted (v : string) (w : World) : World :=
  mkWorld (state w) v (signals w ++ [v]) (input_reset w).
(** [event.target.value = null]. *)
Definition reset_input (w : World) : World :=
  mkWorld (state w) (text w) (signals w) true.

Definition pdf_unreadable : string := "Unable to read PDF file.".
Definition pdf_failed : string :=
  "Failed to read PDF file. Try another file or paste the text manually.".
Definition text_unreadable : string := "Failed to read text file.".
Definition doc_unsupported : string :=
  "Automatic parsing for DOC/DOCX is not supported. Please save as PDF/TXT or paste the content below.".
Definition type_unsupported (name : string) : string :=
  "Unsupported file type: " ++ name
  ++ ". Please upload a PDF/TXT or paste the content manually.".

Section WithPlatform.
Context {P : Platform}.
Local Open Scope js_scope.

(** The [for] loop of [readPdfFile], from page [pageNum], with
    [fuel = numPages + 1 - pageNum] iterations left. *)
Fixpoint read_pages (pdf : PdfDocument) (fuel pageNum : nat)
         (fullText : string) : Result string :=
  match fuel with
  | O => Ok fullText
  | S fuel' =>
      match getPage pdf pageNum with
      | Throw e => Throw e
      | Ok page =>
          match getTextContent page with
          | Throw e => Throw e
          | Ok content =>
              let strings := map str (items content) in
              read_pages pdf fuel' (S pageNum)
                (fullText ++ Str.join " " strings ++ Str.LF ++ Str.LF)
          end
      end
  end.

(** The [try] block of [reader.onload]. *)
Definition parse_pdf (data : list Byte.byte) : Result string :=
  match getDocument data with
  | Throw e => Throw e
  | Ok pdf =>
      match read_pages pdf (numPages pdf) 1 "" with
      | Throw e => Throw e
      | Ok fullText => Ok (Str.trim fullText)
      end
  end.

Definition readPdfFile (file : File) : Result string :=
  match readAsArrayBuffer file with
  | None => Throw (Error pdf_unreadable)
  | Some data =>
      match parse_pdf data with
      | Ok t => Ok t
      | Throw _ => Throw (Error pdf_failed)
      end
  end.

Definition isPdf (file : File) : bool :=
  String.eqb (file_type file) "application/pdf"
  || Str.endsWith (Str.toLowerCase (file_name file)) ".pdf".
Definition isTxt (file : File) : bool :=
  String.eqb (file_type file) "text/plain"
  || Str.endsWith (Str.toLowerCase (file_name file)) ".txt".
Definition isDoc (file : File) : bool :=
  Str.endsWith (Str.toLowerCase (file_name file)) ".doc"
  || Str.endsWith (Str.toLowerCase (file_name file)) ".docx".

(** The extraction of the [try] block: the text, or the error thrown. *)
Definition extract (file : File) : Result string :=
  if isPdf file then readPdfFile file
  else if isTxt file then
    match readAsText file with
    | Some t => Ok t
    | None => Throw (Error text_unreadable)
    end
  else if isDoc file then Throw (Error doc_unsupported)
  else Throw (Error (type_unsupported (file_name file))).

(** [handleFileUpload(event)], with [file = event.target.files[0]]. *)
Definition handleFileUpload (file : option File) : M World unit :=
  match file with
  | None => ret tt
  | Some file =>
      modify (setError None) ;;
      modify (setIsUploading true) ;;
      finally
        (try_catch
           (extractedText <- lift (extract file) ;;
            modify (onTextExtracted extractedText))
           (fun e =>
              modify (setError (Some (message e))) ;;
              modify (onTextExtracted "")))
        (fun w => reset_input (setIsUploading false w))
  end.

End WithPlatform.
End Upload.

(* ================================================================== *)
(** ** FileUpload.jsx: the drag-and-drop component *)

Module DropUpload.

Record State : Type := mkState {
  error : option string;
  fileName : string;
  isUploading : bool
}.

Record World : Type := mkWorld {
  state : State;
  text : string;
  signals : list string
}.

Definition setError (v : option string) (w : World) : World :=
  mkWorld (mkState v (fileName (state w)) (isUploading (state w)))
          (text w) (signals w).
Definition setFileName (v : string) (w : World) : World :=
  mkWorld (mkState (error (state w)) v (isUploading (state w)))
          (text w) (signals w).
Definition setIsUploading (v : bool) (w : World) : World :=
  mkWorld (mkState (error (state w)) (fileName (state w)) v)
          (text w) (signals w).
Definition onTextExtracted (v : string) (w : World) : World :=
  mkWorld (state w) v (signals w ++ [v]).

(** react-dropzone's rejection record. *)
Record FileError : Type := mkFileError { code : string; reason : string }.
Record FileRejection : Type := mkRejection {
  rejected_file : File;
  errors : option (list FileError)
}.

Definition parse_failed : string :=
  "Failed to parse PDF. Please try a different file or check that it is not password-protected.".
Definition no_file : string := "No file received. Please try again.".
Definition not_pdf : string := "Please upload a valid PDF file (max 5MB).".
Definition too_large : string :=
  "File is too large. Maximum allowed size is 5MB.".
Definition rejected : string :=
  "File was rejected. Please ensure it is a PDF under 5MB.".

Section WithPlatform.
Context {P : Platform}.
Local Open Scope js_scope.

(** The [for] loop of [extractText], from page [i], with
    [fuel = numPages + 1 - i] iterations left. *)
Fixpoint read_pages (pdf : PdfDocument) (fuel i : nat)
         (extractedText : string) : Result string :=
  match fuel with
  | O => Ok extractedText
  | S fuel' =>
      match getPage pdf i with
      | Throw e => Throw e
      | Ok page =>
          match getTextContent page with
          | Throw e => Throw e
          | Ok textContent =>
              let pageText := Str.join " " (map str (items textContent)) in
              read_pages pdf fuel' (S i) (extractedText ++ pageText ++ Str.LF)
          end
      end
  end.

(** From [file.arrayBuffer()] to the trimmed text. *)
Definition parse (file : File) : Result string :=
  match file_arrayBuffer file with
  | Throw e => Throw e
  | Ok arrayBuffer =>
      match getDocument arrayBuffer with
      | Throw e => Throw e
      | Ok pdf =>
          match read_pages pdf (numPages pdf) 1 "" with
          | Throw e => Throw e
          | Ok extractedText => Ok (Str.trim extractedText)
          end
      end
  end.

Definition extractText (file : File) : M World unit :=
  finally
    (try_catch
       (modify (setError None) ;;
        modify (setIsUploading true) ;;
        modify (setFileName (file_name file)) ;;
        t <- lift (parse file) ;;
        modify (onTextExtracted t))
       (fun _ =>
          modify (setError (Some parse_failed)) ;;
          modify (onTextExtracted "") ;;
          modify (setFileName "")))
    (setIsUploading false).

Definition isPdfType (file : File) : bool :=
  String.eqb (file_type file) "application/pdf"
  || Str.endsWith (Str.toLowerCase (file_name file)) ".pdf".

Definition onDrop (acceptedFiles : list File) : M World unit :=
  match acceptedFiles with
  | [] => modify (setError (Some no_file))
  | file :: _ =>
      if negb (isPdfType file) then modify (setError (Some not_pdf))
      else extractText file
  end.

Definition onDropRejected (fileRejections : list FileRejection) : M World unit :=
  match fileRejections with
  | [] => ret tt
  | rejection :: _ =>
      let large :=
        match errors rejection with
        | Some es => existsb (fun e => String.eqb (code e) "file-too-large") es
        | None => false
        end in
      if large then modify (setError (Some too_large))
      else modify (setError (Some rejected))
  end.

(** The condition [text && !error] of the success banner. *)
Definition success_banner (w : World) : bool :=
  negb (Str.is_empty (text w))
  && match error (state w) with
     | None => true
     | Some e => Str.is_empty e
     end.

End WithPlatform.
End DropUpload.

(* ================================================================== *)
(** ** ResumeEditor.jsx: applying a suggestion *)

Module ResumeEditor.

Record Suggestion : Type := mkSuggestion {
  id : string;
  section : string;
  fromText : string;
  toText : string;
  feedback : string
}.

Record State : Type := mkState {
  text : string;
  activeSuggestion : option Suggestion;
  appliedSuggestions : list string
}.

(** [applySuggestion(suggestion)]; [None] is a missing suggestion. *)
Definition applySuggestion (suggestion : option Suggestion) (s : State) : State :=
  match suggestion with
  | None => s
  | Some sg =>
      if Str.is_empty (fromText sg) then s
      else
        let newText := Str.replace (text s) (fromText sg) (toText sg) in
        mkState newText None (appliedSuggestions s ++ [id sg])
  end.

(** [appliedSuggestions.includes(suggestion.id)]. *)
Definition isApplied (sg : Suggestion) (s : State) : bool :=
  existsb (String.eqb (id sg)) (appliedSuggestions s).

End ResumeEditor.

(* ================================================================== *)
(** ** Statement vocabulary *)

(** The final state of a computation. *)
Definition exec {S A} (c : M S A) (s : S) : S := snd (c s).

(** The nested text blob of a response envelope:
    [candidates[0].content.parts[0].text]. *)
Definition nested_text (envelope : JValue) : JValue :=
  Js.get
    (Js.get0
       (Js.get (Js.get (Js.get0 (Js.get envelope "candidates")) "content")
               "parts"))
    "text".

(** The state in which [analyzeResume] starts its [try] block. *)
Definition started (w : App.World) : App.World :=
  App.upd (App.setOriginalResumeText (App.resumeText (App.state w)))
    (App.upd (App.setApiError "")
       (App.upd (App.setAnalysis VNull)
          (App.upd (App.setLoading true) w))).

(** How one attempt of the retry loop ends for a given outcome of
    [fetch]: with a response to read, or with the error of the attempt. *)
Definition attempt_outcome (o : FetchOutcome) : Result Response :=
  match o with
  | Rejected e => Throw e
  | Responded r =>
      if response_ok r then Ok r
      else Throw (Error ("HTTP error! status: " ++ Str.of_nat (status r)))
  end.

(** The text of a page: its tokens joined by single spaces. *)
Definition page_text (tokens : list string) : string := Str.join " " tokens.

Definition blank_line : string := Str.LF ++ Str.LF.

(** What a loop builds by appending [text ++ sep] for every page in turn. *)
Fixpoint appended (sep : string) (texts : list string) : string :=
  match texts with
  | [] => ""
  | t :: r => t ++ sep ++ appended sep r
  end.

(** A decoded document whose pages 1, 2, ... carry the given tokens. *)
Definition has_pages (pdf : PdfDocument) (pages : list (list string)) : Prop :=
  numPages pdf = List.length pages /\
  forall i tokens, nth_error pages i = Some tokens ->
    exists page content,
      getPage pdf (S i) = Ok page /\
      getTextContent page = Ok content /\
      map str (items content) = tokens.

(** The fields of the response schema other than [matchPercentage]. *)
Definition other_fields : list string :=
  ["scoreBreakdown"; "atsScore"; "missingKeywords"; "sectionFeedback";
   "strengths"; "weaknesses"; "keyChanges"; "summary"].

(** The report in which every field but the match percentage is a default. *)
Definition default_report (matchPercentage : JValue) : AnalysisResults.Report :=
  AnalysisResults.mkReport matchPercentage (VNum Num.zero)
    (VNum Num.zero) (VNum Num.zero) (VNum Num.zero) (VNum Num.zero)
    (VStr "") [] [] [] [] [] [] [].

(** The calls and waits of [k] attempts in a row, the first of them at
    loop index [i]: the wait of index [i] follows every attempt but the
    last. *)
Fixpoint schedule (call : App.Event) (i k : nat) : list App.Event :=
  match k with
  | O => []
  | S k' =>
      call :: match k' with
              | O => []
              | S _ => App.ESleep (App.wait_ms i) :: schedule call (S i) k'
              end
  end.

Fixpoint last_char (s : string) : option ascii :=
  match s with
  | EmptyString => None
  | String c EmptyString => Some c
  | String _ r => last_char r
  end.

Definition starts_with_space (s : string) : bool :=
  match s with
  | String c _ => Str.is_space c
  | EmptyString => false
  end.

Definition ends_with_space (s : string) : bool :=
  match last_char s with
  | Some c => Str.is_space c
  | None => false
  end.

(** A text without a dollar sign. *)
Fixpoint no_dollar (s : string) : bool :=
  match s with
  | EmptyString => true
  | String c r => negb (Ascii.eqb c "$") && no_dollar r
  end.

(* ================================================================== *)
(** ** A concrete platform for the examples *)

Module Sample.

Definition dq : string := String (ascii_of_nat 34) EmptyString.

(** The text [{"matchPercentage": 72}]. *)
Definition text_72 : string := "{" ++ dq ++ "matchPercentage" ++ dq ++ ": 72}".
(** The text [{"atsScore": 72}]. *)
Definition text_ats : string := "{" ++ dq ++ "atsScore" ++ dq ++ ": 72}".

Definition obj_72 : JValue := VObj [("matchPercentage", VNum (Num.of_Z 72))].
Definition obj_ats : JValue := VObj [("atsScore", VNum (Num.of_Z 72))].

(** [JSON.parse] on the texts the examples use. *)
Definition parse (s : string) : Result JValue :=
  if String.eqb s text_72 then Ok obj_72
  else if String.eqb s text_ats then Ok obj_ats
  else if String.eqb s "[]" then Ok (VArr [])
  else if String.eqb s "null" then Ok VNull
  else if String.eqb s "72" then Ok (VNum (Num.of_Z 72))
  else Throw (mkExn "SyntaxError" "Unexpected token").

Definition envelope (blob : JValue) : JValue :=
  VObj [("candidates",
         VArr [VObj [("content",
                      VObj [("parts", VArr [VObj [("text", blob)]])])]])].

Definition ok_response (blob : JValue) : FetchOutcome :=
  Responded (mkResponse 200 (Ok (envelope blob))).

Definition unavailable : FetchOutcome :=
  Responded (mkResponse 503 (Ok VNull)).

Definition offline : FetchOutcome :=
  Rejected (mkExn "TypeError" "Failed to fetch").

(** A two-page document. *)
Definition page1 : list string := ["Jane"; "Doe"].
Definition page2 : list string := ["Skills:"; "Rocq"].

Definition pdf : PdfDocument :=
  mkPdf 2 (fun n =>
    match n with
    | 1 => Ok (mkPage (Ok (mkContent (map mkItem page1))))
    | 2 => Ok (mkPage (Ok (mkContent (map mkItem page2))))
    | _ => Throw (Error "Invalid page request.")
    end).

(** The bytes [%PDF], standing for the file of [pdf]. *)
Definition pdf_bytes : list Byte.byte :=
  [Byte.x25; Byte.x50; Byte.x44; Byte.x46].

Definition bytes_eqb (a b : list Byte.byte) : bool :=
  if list_eq_dec Byte.byte_eq_dec a b then true else false.

(** A platform whose network answers by a script, one entry per call,
    and is offline once the script is used up. *)
Definition platform (script : list FetchOutcome) : Platform := {|
  JSON_parse := parse;
  StringToNumber := fun s => if Str.is_empty s then Num.zero else Num.NaN;
  NumberToString := fun _ => "NaN";
  readAsText := fun f => Some (string_of_list_byte (file_data f));
  readAsArrayBuffer := fun f => Some (file_data f);
  file_arrayBuffer := fun f => Ok (file_data f);
  getDocument := fun data =>
    if bytes_eqb data pdf_bytes then Ok pdf
    else Throw (mkExn "InvalidPDFException" "Invalid PDF structure.");
  fetch := fun n _ _ => nth n script offline;
  VITE_GEMINI_API_KEY := Some "key"
|}.

Definition hello : list Byte.byte :=
  [Byte.x68; Byte.x65; Byte.x6c; Byte.x6c; Byte.x6f].

Definition docx_as_text : File := mkFile "cv.docx" "text/plain" hello.
Definition docx_file : File :=
  mkFile "cv.docx"
    "application/vnd.openxmlformats-officedocument.wordprocessingml.document"
    hello.
Definition pdf_file : File := mkFile "cv.pdf" "application/pdf" pdf_bytes.
Definition broken_pdf : File := mkFile "cv.pdf" "application/pdf" hello.
Definition txt_file : File := mkFile "cv.txt" "text/plain" hello.

Definition upload0 : Upload.World :=
  Upload.mkWorld (Upload.mkState false None) "old text" [] false.

Definition drop0 : DropUpload.World :=
  DropUpload.mkWorld (DropUpload.mkState None "old.pdf" false) "old text" [].

(** A text of [n] characters. *)
Definition filler (n : Z) : string :=
  string_of_list_ascii (repeat "x"%char (Z.to_nat n)).

Definition app0 : App.World :=
  App.mkWorld (App.mkState "my resume" "the job" VNull false "" "") [].

(** A document whose second page cannot be read, and one without pages. *)
Definition torn_pdf : PdfDocument :=
  mkPdf 2 (fun n =>
    match n with
    | 1 => Ok (mkPage (Ok (mkContent (map mkItem page1))))
    | 2 => Ok (mkPage (Throw (Error "Page content is damaged.")))
    | _ => Throw (Error "Invalid page request.")
    end).

Definition empty_pdf : PdfDocument :=
  mkPdf 0 (fun _ => Throw (Error "Invalid page request.")).

(** A platform on which every file decodes to the given document. *)
Definition pdf_platform (doc : PdfDocument) : Platform := {|
  JSON_parse := parse;
  StringToNumber := fun s => if Str.is_empty s then Num.zero else Num.NaN;
  NumberToString := fun _ => "NaN";
  readAsText := fun f => Some (string_of_list_byte (file_data f));
  readAsArrayBuffer := fun f => Some (file_data f);
  file_arrayBuffer := fun f => Ok (file_data f);
  getDocument := fun _ => Ok doc;
  fetch := fun _ _ _ => offline;
  VITE_GEMINI_API_KEY := Some "key"
|}.

(** A platform whose network answers every call with the text [txt] in
    an envelope, and on which [txt] parses to [v]. *)
Definition answering (txt : string) (v : JValue) : Platform := {|
  JSON_parse := fun s =>
    if String.eqb s txt then Ok v
    else Throw (mkExn "SyntaxError" "Unexpected token");
  StringToNumber := fun s => if Str.is_empty s then Num.zero else Num.NaN;
  NumberToString := fun _ => "NaN";
  readAsText := fun f => Some (string_of_list_byte (file_data f));
  readAsArrayBuffer := fun f => Some (file_data f);
  file_arrayBuffer := fun f => Ok (file_data f);
  getDocument := fun _ => Throw (mkExn "InvalidPDFException" "Invalid PDF structure.");
  fetch := fun _ _ _ => ok_response (VStr txt);
  VITE_GEMINI_API_KEY := Some "key"
|}.

(** The text [{"matchPercentage": 72, "missingKeywords": null}] and its
    value. *)
Definition text_null_keywords : string :=
  "{" ++ dq ++ "matchPercentage" ++ dq ++ ": 72, "
  ++ dq ++ "missingKeywords" ++ dq ++ ": null}".

Definition obj_null_keywords : list (string * JValue) :=
  [("matchPercentage", VNum (Num.of_Z 72)); ("missingKeywords", VNull)].

End Sample.

(* ================================================================== *)
(** * Properties *)

(** ** Strings *)

Section StringFacts.

Lemma str_length_app (a b : string) :
  String.length (a ++ b) = String.length a + String.length b.
Proof. induction a as [|c a IH]; simpl; [reflexivity | now rewrite IH]. Qed.

Lemma app_assoc_s (a b c : string) : (a ++ b) ++ c = a ++ b ++ c.
Proof. induction a as [|x a IH]; simpl; [reflexivity | now rewrite IH]. Qed.

Lemma app_empty_r (a : string) : a ++ "" = a.
Proof. induction a as [|x a IH]; simpl; [reflexivity | now rewrite IH]. Qed.

Lemma toLowerCase_app (a b : string) :
  Str.toLowerCase (a ++ b) = Str.toLowerCase a ++ Str.toLowerCase b.
Proof. induction a as [|c a IH]; simpl; [reflexivity | now rewrite IH]. Qed.

Lemma toLowerCase_length (a : string) :
  String.length (Str.toLowerCase a) = String.length a.
Proof. induction a as [|c a IH]; simpl; [reflexivity | now rewrite IH]. Qed.

(** Skipping a whole prefix. *)
Lemma substring_skip (p a : string) (k m : nat) :
  String.substring (String.length p + k) m (p ++ a) = String.substring k m a.
Proof. induction p as [|c p IH]; simpl; [reflexivity | exact IH]. Qed.

(** A suffix test only looks at the last characters. *)
Lemma endsWith_behind (p a b : string) :
  String.length b <= String.length a ->
  Str.endsWith (p ++ a) b = Str.endsWith a b.
Proof.
  intros Hle. unfold Str.endsWith. rewrite str_length_app.
  replace (String.length p + String.length a - String.length b)
    with (String.length p + (String.length a - String.length b)) by lia.
  rewrite substring_skip.
  destruct (Nat.leb_spec (String.length b) (String.length a)); [|lia].
  destruct (Nat.leb_spec (String.length b) (String.length p + String.length a));
    [reflexivity | lia].
Qed.

Lemma substring_all (s : string) :
  String.substring 0 (String.length s) s = s.
Proof. induction s as [|c s IH]; simpl; [reflexivity | now rewrite IH]. Qed.

Lemma endsWith_app (p a : string) : Str.endsWith (p ++ a) a = true.
Proof.
  rewrite endsWith_behind by lia. unfold Str.endsWith.
  rewrite Nat.sub_diag, substring_all, String.eqb_refl, Nat.leb_refl.
  reflexivity.
Qed.

(** A substring taken from the start is a prefix, of the expected length. *)
Lemma substring_0_prefix (n : nat) (s : string) :
  exists rest, s = String.substring 0 n s ++ rest.
Proof.
  revert n. induction s as [|c s IH]; intros [|n]; simpl.
  - now exists "".
  - now exists "".
  - now exists (String c s).
  - destruct (IH n) as [rest Hr]. exists rest. now rewrite <- Hr.
Qed.

Lemma substring_0_length (n : nat) (s : string) :
  String.length (String.substring 0 n s) = Nat.min n (String.length s).
Proof.
  revert n. induction s as [|c s IH]; intros [|n]; simpl; try reflexivity.
  now rewrite IH.
Qed.

Lemma substring_0_all (n : nat) (s : string) :
  String.length s <= n -> String.substring 0 n s = s.
Proof.
  revert n. induction s as [|c s IH]; intros [|n] H; simpl in *;
    try reflexivity; try lia.
  rewrite IH by lia. reflexivity.
Qed.

(** [s.substring(0, cap)] for a cap that is not negative. *)
Lemma substring_cap (s : string) (cap : Z) :
  (0 <= cap)%Z ->
  Str.substring s 0 cap =
  String.substring 0 (Nat.min (Z.to_nat cap) (String.length s)) s.
Proof.
  intros Hc. unfold Str.substring.
  replace (Z.min (Z.max 0 0) (Z.of_nat (String.length s))) with 0%Z by lia.
  replace (Z.max cap 0) with cap by lia.
  replace (Z.min 0 (Z.min cap (Z.of_nat (String.length s)))) with 0%Z by lia.
  replace (Z.max 0 (Z.min cap (Z.of_nat (String.length s))) - 0)%Z
    with (Z.min cap (Z.of_nat (String.length s))) by lia.
  f_equal. lia.
Qed.

Lemma substring_cap_prefix (s : string) (cap : Z) :
  (0 <= cap)%Z -> exists rest, s = Str.substring s 0 cap ++ rest.
Proof. intros H. rewrite substring_cap by exact H. apply substring_0_prefix. Qed.

Lemma substring_cap_length (s : string) (cap : Z) :
  (0 <= cap)%Z ->
  Z.of_nat (String.length (Str.substring s 0 cap))
  = Z.min (Z.of_nat (String.length s)) cap.
Proof.
  intros H. rewrite substring_cap by exact H.
  rewrite substring_0_length. lia.
Qed.

Lemma substring_cap_small (s : string) (cap : Z) :
  (Z.of_nat (String.length s) <= cap)%Z -> Str.substring s 0 cap = s.
Proof.
  intros H. rewrite substring_cap by lia.
  apply substring_0_all. lia.
Qed.

(** Trailing white space does not survive [trim]. *)
Lemma trimEnd_space (s : string) (c : ascii) :
  Str.is_space c = true ->
  Str.trimEnd (s ++ String c "") = Str.trimEnd s.
Proof.
  intros Hc. induction s as [|x s IH]; simpl.
  - now rewrite Hc.
  - now rewrite IH.
Qed.

Lemma trim_LF (s : string) : Str.trim (s ++ Str.LF) = Str.trim s.
Proof. unfold Str.trim, Str.LF. now rewrite trimEnd_space. Qed.

Lemma trim_blank_line (s : string) :
  Str.trim (s ++ Str.LF ++ Str.LF) = Str.trim s.
Proof. now rewrite <- app_assoc_s, !trim_LF. Qed.

(** The text a loop builds is the joined text followed by one more
    separator. *)
Lemma appended_join (sep t : string) (r : list string) :
  appended sep (t :: r) = Str.join sep (t :: r) ++ sep.
Proof.
  revert t. induction r as [|u r IH]; intros t.
  - simpl. now rewrite app_empty_r.
  - change (appended sep (t :: u :: r)) with (t ++ sep ++ appended sep (u :: r)).
    rewrite IH.
    change (Str.join sep (t :: u :: r)) with (t ++ sep ++ Str.join sep (u :: r)).
    now rewrite !app_assoc_s.
Qed.

End StringFacts.

(* ================================================================== *)
(** ** Text extraction *)

Section ExtractionFacts.
Context {P : Platform}.

(** The page loop of [readPdfFile] appends the pages in page order. *)
Lemma upload_read_pages (pdf : PdfDocument) (pages : list (list string)) :
  (forall i tokens, nth_error pages i = Some tokens ->
     exists page content,
       getPage pdf (S i) = Ok page /\
       getTextContent page = Ok content /\
       map str (items content) = tokens) ->
  forall rest pre acc,
    pages = (pre ++ rest)%list ->
    Upload.read_pages pdf (List.length rest) (S (List.length pre)) acc
    = Ok (acc ++ appended blank_line (map page_text rest)).
Proof.
  intros Hp rest. induction rest as [|t r IH]; intros pre acc E.
  - simpl. now rewrite app_empty_r.
  - destruct (Hp (List.length pre) t) as (page & content & Hg & Hc & Hs).
    { rewrite E, nth_error_app2, Nat.sub_diag by lia. reflexivity. }
    cbn [Upload.read_pages List.length]. rewrite Hg, Hc, Hs.
    specialize (IH (pre ++ [t])%list (acc ++ Str.join " " t ++ Str.LF ++ Str.LF)).
    rewrite List.length_app, Nat.add_1_r in IH.
    rewrite IH by (now rewrite <- app_assoc).
    cbn [map appended]. unfold page_text, blank_line.
    now rewrite !app_assoc_s.
Qed.

(** The page loop of the drag-and-drop [extractText]. *)
Lemma drop_read_pages (pdf : PdfDocument) (pages : list (list string)) :
  (forall i tokens, nth_error pages i = Some tokens ->
     exists page content,
       getPage pdf (S i) = Ok page /\
       getTextContent page = Ok content /\
       map str (items content) = tokens) ->
  forall rest pre acc,
    pages = (pre ++ rest)%list ->
    DropUpload.read_pages pdf (List.length rest) (S (List.length pre)) acc
    = Ok (acc ++ appended Str.LF (map page_text rest)).
Proof.
  intros Hp rest. induction rest as [|t r IH]; intros pre acc E.
  - simpl. now rewrite app_empty_r.
  - destruct (Hp (List.length pre) t) as (page & content & Hg & Hc & Hs).
    { rewrite E, nth_error_app2, Nat.sub_diag by lia. reflexivity. }
    cbn [DropUpload.read_pages List.length]. rewrite Hg, Hc, Hs.
    specialize (IH (pre ++ [t])%list (acc ++ Str.join " " t ++ Str.LF)).
    rewrite List.length_app, Nat.add_1_r in IH.
    rewrite IH by (now rewrite <- app_assoc).
    cbn [map appended]. unfold page_text. now rewrite !app_assoc_s.
Qed.

(** Trimming what a loop appended gives the trimmed joined text. *)
Lemma trim_appended_blank (texts : list string) :
  Str.trim (appended blank_line texts) = Str.trim (Str.join blank_line texts).
Proof.
  destruct texts as [|t r]; [reflexivity|].
  rewrite appended_join. unfold blank_line. apply trim_blank_line.
Qed.

Lemma trim_appended_LF (texts : list string) :
  Str.trim (appended Str.LF texts) = Str.trim (Str.join Str.LF texts).
Proof.
  destruct texts as [|t r]; [reflexivity|].
  rewrite appended_join. apply trim_LF.
Qed.

Lemma upload_parse_pdf (data : list Byte.byte) (pdf : PdfDocument)
      (pages : list (list string)) :
  getDocument data = Ok pdf ->
  has_pages pdf pages ->
  Upload.parse_pdf data
  = Ok (Str.trim (Str.join blank_line (map page_text pages))).
Proof.
  intros Hd [Hn Hp]. unfold Upload.parse_pdf. rewrite Hd, Hn.
  pose proof (upload_read_pages pdf Hp pages [] "" eq_refl) as Hr.
  cbn [List.length] in Hr. rewrite Hr.
  cbn [String.append]. now rewrite trim_appended_blank.
Qed.

Lemma drop_parse (file : File) (data : list Byte.byte) (pdf : PdfDocument)
      (pages : list (list string)) :
  file_arrayBuffer file = Ok data ->
  getDocument data = Ok pdf ->
  has_pages pdf pages ->
  DropUpload.parse file
  = Ok (Str.trim (Str.join Str.LF (map page_text pages))).
Proof.
  intros Hb Hd [Hn Hp]. unfold DropUpload.parse. rewrite Hb, Hd, Hn.
  pose proof (drop_read_pages pdf Hp pages [] "" eq_refl) as Hr.
  cbn [List.length] in Hr. rewrite Hr.
  cbn [String.append]. now rewrite trim_appended_LF.
Qed.

(** What [handleFileUpload] leaves, by the outcome of the extraction. *)
Lemma handleFileUpload_ok (file : File) (t : string) (w : Upload.World) :
  Upload.extract file = Ok t ->
  exec (Upload.handleFileUpload (Some file)) w
  = Upload.mkWorld (Upload.mkState false None) t
      (Upload.signals w ++ [t]) true.
Proof.
  intros H. unfold exec, Upload.handleFileUpload, bind, modify, finally,
    try_catch, lift. simpl. rewrite H. reflexivity.
Qed.

Lemma handleFileUpload_throw (file : File) (e : Exn) (w : Upload.World) :
  Upload.extract file = Throw e ->
  exec (Upload.handleFileUpload (Some file)) w
  = Upload.mkWorld (Upload.mkState false (Some (message e))) ""
      (Upload.signals w ++ [""]) true.
Proof.
  intros H. unfold exec, Upload.handleFileUpload, bind, modify, finally,
    try_catch, lift. simpl. rewrite H. reflexivity.
Qed.

Lemma extractText_ok (file : File) (t : string) (w : DropUpload.World) :
  DropUpload.parse file = Ok t ->
  exec (DropUpload.extractText file) w
  = DropUpload.mkWorld (DropUpload.mkState None (file_name file) false) t
      (DropUpload.signals w ++ [t]).
Proof.
  intros H. unfold exec, DropUpload.extractText, bind, modify, finally,
    try_catch, lift. simpl. rewrite H. reflexivity.
Qed.

Lemma extractText_throw (file : File) (e : Exn) (w : DropUpload.World) :
  DropUpload.parse file = Throw e ->
  exec (DropUpload.extractText file) w
  = DropUpload.mkWorld
      (DropUpload.mkState (Some DropUpload.parse_failed) "" false) ""
      (DropUpload.signals w ++ [""]).
Proof.
  intros H. unfold exec, DropUpload.extractText, bind, modify, finally,
    try_catch, lift. simpl. rewrite H. reflexivity.
Qed.

(** A name that ends in [.docx] is a DOC name, not a PDF or TXT name. *)
Lemma docx_name (stem : string) :
  let name := Str.toLowerCase (stem ++ ".docx") in
  Str.endsWith name ".pdf" = false /\
  Str.endsWith name ".txt" = false /\
  Str.endsWith name ".docx" = true.
Proof.
  simpl. rewrite toLowerCase_app.
  change (Str.toLowerCase ".docx") with ".docx".
  rewrite !endsWith_behind by (simpl; lia).
  repeat split; reflexivity.
Qed.

End ExtractionFacts.

(** C2 (amended).  A file whose name ends in [.docx] and whose declared
    MIME type is neither [application/pdf] nor [text/plain] is never read:
    the extraction throws the DOC/DOCX error, which [handleFileUpload]
    shows while passing the empty string to the caller.  The two MIME types
    are tested before the name and send the file to the PDF or text
    reader. *)
Theorem docx_rejected_unless_typed_pdf_or_text :
  forall (P : Platform) (file : File) (stem : string) (w : Upload.World),
    file_name file = stem ++ ".docx" ->
    file_type file <> "application/pdf" ->
    file_type file <> "text/plain" ->
    Upload.extract file = Throw (Error Upload.doc_unsupported) /\
    Upload.error (Upload.state (exec (Upload.handleFileUpload (Some file)) w))
      = Some Upload.doc_unsupported /\
    Upload.text (exec (Upload.handleFileUpload (Some file)) w) = "" /\
    Upload.signals (exec (Upload.handleFileUpload (Some file)) w)
      = (Upload.signals w ++ [""])%list.
Proof.
  intros P file stem w Hname Hpdf Htxt.
  assert (E : Upload.extract file = Throw (Error Upload.doc_unsupported)).
  { destruct (docx_name stem) as (Hp & Ht & Hd).
    unfold Upload.extract, Upload.isPdf, Upload.isTxt, Upload.isDoc.
    rewrite Hname, Hp, Ht, Hd.
    apply String.eqb_neq in Hpdf, Htxt. rewrite Hpdf, Htxt.
    simpl. now rewrite orb_true_r. }
  split; [exact E|].
  rewrite (handleFileUpload_throw file w E). simpl. repeat split.
Qed.

Lemma docx_rejected_witness :
  Upload.extract (P := Sample.platform []) Sample.docx_file
  = Throw (Error Upload.doc_unsupported).
Proof.
  apply (docx_rejected_unless_typed_pdf_or_text
           (Sample.platform []) Sample.docx_file "cv" Sample.upload0).
  - reflexivity.
  - intros H; discriminate H.
  - intros H; discriminate H.
Defined.

(** C2 fails as stated: [cv.docx] declared as [text/plain] is read as
    text and its content is handed to the caller, with no error. *)
Lemma docx_declared_text_is_read :
  file_name Sample.docx_as_text = "cv" ++ ".docx" /\
  Upload.extract (P := Sample.platform []) Sample.docx_as_text = Ok "hello" /\
  exec (Upload.handleFileUpload (P := Sample.platform [])
          (Some Sample.docx_as_text)) Sample.upload0
  = Upload.mkWorld (Upload.mkState false None) "hello" ["hello"] true.
Proof. repeat split. Qed.

(** C5 (amended).  For a file classified as PDF that decodes to the pages
    [pages] (page 1 first), [handleFileUpload] of App.jsx hands the caller
    the page texts (tokens joined by single spaces) joined in page order by
    a blank line and trimmed; the drag-and-drop component hands over the
    same page texts in the same order, joined by a single line break and
    trimmed.  Neither sets an error. *)
Theorem pdf_text_is_pages_in_order :
  forall (P : Platform) (file : File) (data : list Byte.byte)
         (pdf : PdfDocument) (pages : list (list string))
         (w : Upload.World) (d : DropUpload.World),
    Upload.isPdf file = true ->
    readAsArrayBuffer file = Some data ->
    file_arrayBuffer file = Ok data ->
    getDocument data = Ok pdf ->
    has_pages pdf pages ->
    (Upload.text (exec (Upload.handleFileUpload (Some file)) w)
       = Str.trim (Str.join blank_line (map page_text pages)) /\
     Upload.error (Upload.state (exec (Upload.handleFileUpload (Some file)) w))
       = None) /\
    (DropUpload.text (exec (DropUpload.onDrop [file]) d)
       = Str.trim (Str.join Str.LF (map page_text pages)) /\
     DropUpload.error (DropUpload.state (exec (DropUpload.onDrop [file]) d))
       = None).
Proof.
  intros P file data pdf pages w d Hpdf Hr Hb Hd Hp. split.
  - assert (E : Upload.extract file
                = Ok (Str.trim (Str.join blank_line (map page_text pages)))).
    { unfold Upload.extract, Upload.readPdfFile. rewrite Hpdf, Hr.
      now rewrite (upload_parse_pdf data Hd Hp). }
    rewrite (handleFileUpload_ok file w E). split; reflexivity.
  - unfold DropUpload.onDrop.
    change (DropUpload.isPdfType file) with (Upload.isPdf file).
    rewrite Hpdf. cbn [negb].
    rewrite (extractText_ok file d (drop_parse file Hb Hd Hp)).
    split; reflexivity.
Qed.

Lemma sample_pdf_has_pages : has_pages Sample.pdf [Sample.page1; Sample.page2].
Proof.
  split; [reflexivity|].
  intros [|[|i]] tokens H; simpl in H.
  - injection H as <-. now eexists _, _.
  - injection H as <-. now eexists _, _.
  - destruct i; discriminate H.
Qed.

Lemma pdf_text_witness :
  Upload.text (exec (Upload.handleFileUpload (P := Sample.platform [])
                       (Some Sample.pdf_file)) Sample.upload0)
  = Str.trim (Str.join blank_line (map page_text [Sample.page1; Sample.page2])).
Proof.
  apply (pdf_text_is_pages_in_order (Sample.platform []) Sample.pdf_file
           (data := Sample.pdf_bytes) (pdf := Sample.pdf)
           Sample.upload0 Sample.drop0).
  - reflexivity.
  - reflexivity.
  - reflexivity.
  - reflexivity.
  - exact sample_pdf_has_pages.
Defined.

(** C5 fails as stated for the drag-and-drop component: its two pages come
    out separated by one line break, not by a blank line. *)
Lemma drop_pages_not_blank_line_separated :
  Upload.isPdf Sample.pdf_file = true /\
  getDocument (Platform := Sample.platform []) (file_data Sample.pdf_file)
    = Ok Sample.pdf /\
  DropUpload.text (exec (DropUpload.onDrop (P := Sample.platform [])
                           [Sample.pdf_file]) Sample.drop0)
    = "Jane Doe" ++ Str.LF ++ "Skills: Rocq" /\
  DropUpload.text (exec (DropUpload.onDrop (P := Sample.platform [])
                           [Sample.pdf_file]) Sample.drop0)
    <> Str.trim (Str.join blank_line
                   (map page_text [Sample.page1; Sample.page2])).
Proof.
  repeat split. intros H. vm_compute in H. discriminate H.
Qed.

(** C7 (amended).  In App.jsx every failed extraction (unsupported format,
    PDF that does not parse, file that cannot be read) shows the error and
    passes the empty string to the caller; so does a failed parse in the
    drag-and-drop component.  The validations of the drag-and-drop
    component (no file, a file that is not a PDF, a rejection by the
    dropzone) show an error and leave the caller's text as it was: they
    make no call to [onTextExtracted]. *)
Theorem upload_failures_and_caller_text :
  forall (P : Platform) (file : File) (w : Upload.World)
         (d : DropUpload.World),
    (forall e, Upload.extract file = Throw e ->
       let w' := exec (Upload.handleFileUpload (Some file)) w in
       Upload.error (Upload.state w') = Some (message e) /\
       Upload.text w' = "" /\
       Upload.signals w' = (Upload.signals w ++ [""])%list) /\
    (forall e, DropUpload.parse file = Throw e ->
       let d' := exec (DropUpload.extractText file) d in
       DropUpload.error (DropUpload.state d') = Some DropUpload.parse_failed /\
       DropUpload.text d' = "" /\
       DropUpload.signals d' = (DropUpload.signals d ++ [""])%list) /\
    (DropUpload.isPdfType file = false ->
       forall others,
       let d' := exec (DropUpload.onDrop (file :: others)) d in
       DropUpload.error (DropUpload.state d') = Some DropUpload.not_pdf /\
       DropUpload.text d' = DropUpload.text d /\
       DropUpload.signals d' = DropUpload.signals d) /\
    (let d' := exec (DropUpload.onDrop []) d in
     DropUpload.error (DropUpload.state d') = Some DropUpload.no_file /\
     DropUpload.text d' = DropUpload.text d /\
     DropUpload.signals d' = DropUpload.signals d) /\
    (forall rejection others,
       let d' := exec (DropUpload.onDropRejected (rejection :: others)) d in
       (DropUpload.error (DropUpload.state d') = Some DropUpload.too_large \/
        DropUpload.error (DropUpload.state d') = Some DropUpload.rejected) /\
       DropUpload.text d' = DropUpload.text d /\
       DropUpload.signals d' = DropUpload.signals d).
Proof.
  intros P file w d. split; [|split; [|split; [|split]]].
  - intros e E. cbv zeta. rewrite (handleFileUpload_throw file w E).
    repeat split.
  - intros e E. cbv zeta. rewrite (extractText_throw file d E).
    repeat split.
  - intros H others. cbv zeta. unfold DropUpload.onDrop. rewrite H.
    repeat split.
  - repeat split.
  - intros rejection others. cbv zeta. unfold DropUpload.onDropRejected.
    destruct (match DropUpload.errors rejection with
              | Some es => _ | None => false end);
      (split; [|split; reflexivity]); [left | right]; reflexivity.
Qed.

Lemma upload_failures_witness :
  Upload.text (exec (Upload.handleFileUpload (P := Sample.platform [])
                       (Some Sample.broken_pdf)) Sample.upload0) = "" /\
  DropUpload.text (exec (DropUpload.extractText (P := Sample.platform [])
                           Sample.broken_pdf) Sample.drop0) = "" /\
  DropUpload.text (exec (DropUpload.onDrop (P := Sample.platform [])
                           [Sample.txt_file]) Sample.drop0) = "old text".
Proof.
  pose proof (upload_failures_and_caller_text (Sample.platform [])
                Sample.broken_pdf Sample.upload0 Sample.drop0)
    as (H1 & H2 & _).
  pose proof (upload_failures_and_caller_text (Sample.platform [])
                Sample.txt_file Sample.upload0 Sample.drop0)
    as (_ & _ & H3 & _).
  split; [|split].
  - apply (H1 (Error Upload.pdf_failed)). reflexivity.
  - apply (H2 (mkExn "InvalidPDFException" "Invalid PDF structure.")).
    reflexivity.
  - apply (H3 eq_refl []).
Defined.

(** C7 fails as stated: the drag-and-drop component refuses a text file
    with an error and sends the caller nothing, so the text extracted
    before stays. *)
Lemma drop_refusal_keeps_caller_text :
  let d' := exec (DropUpload.onDrop (P := Sample.platform [])
                    [Sample.txt_file]) Sample.drop0 in
  DropUpload.error (DropUpload.state d') = Some DropUpload.not_pdf /\
  DropUpload.text d' = "old text" /\
  DropUpload.signals d' = [].
Proof. repeat split. Qed.

(* ================================================================== *)
(** ** The retry loop *)

Section RetryFacts.
Context {P : Platform}.

Lemma fetches_app (a b : list App.Event) :
  App.fetches (a ++ b) = App.fetches a + App.fetches b.
Proof. unfold App.fetches. now rewrite filter_app, List.length_app. Qed.

(** One attempt makes one call and ends as the outcome of that call says. *)
Lemma attempt_run (url : string) (options : RequestInit) (w : App.World) :
  App.attempt url options w
  = (attempt_outcome (fetch (App.fetches (App.trace w)) url options),
     App.log (App.EFetch url options) w).
Proof.
  unfold App.attempt, App.do_fetch, bind, throw, ret, attempt_outcome.
  destruct (fetch _ url options) as [e|r]; [reflexivity|].
  destruct (response_ok r); reflexivity.
Qed.

(** One iteration of the loop. *)
Lemma retry_loop_step (fuel i retries : nat) (url : string)
      (options : RequestInit) (w : App.World) :
  App.retry_loop (S fuel) i retries url options w
  = let w1 := App.log (App.EFetch url options) w in
    match attempt_outcome (fetch (App.fetches (App.trace w)) url options) with
    | Ok r => (json r, w1)
    | Throw e =>
        if (i <? retries - 1)%nat
        then App.retry_loop fuel (S i) retries url options
               (App.log (App.ESleep (App.wait_ms i)) w1)
        else (Throw e, w1)
    end.
Proof.
  cbn [App.retry_loop]. unfold bind at 1. unfold try_catch.
  unfold bind at 1. rewrite attempt_run.
  destruct (attempt_outcome _) as [r|e]; cbn [ret lift]; [reflexivity|].
  destruct (i <? retries - 1)%nat; reflexivity.
Qed.

(** The loop leaves the React state alone, makes at most [fuel] calls,
    and every call it makes carries the request it was given. *)
Lemma retry_loop_frame (fuel : nat) :
  forall (i retries : nat) (url : string) (options : RequestInit)
         (w : App.World),
  let w' := exec (App.retry_loop fuel i retries url options) w in
  App.state w' = App.state w /\
  exists added,
    App.trace w' = (App.trace w ++ added)%list /\
    App.fetches added <= fuel /\
    Forall (fun e => e = App.EFetch url options \/ exists ms, e = App.ESleep ms)
           added.
Proof.
  induction fuel as [|fuel IH]; intros i retries url options w w'.
  - split; [reflexivity|]. exists []. subst w'. unfold exec. simpl.
    rewrite app_nil_r. repeat split; auto.
  - subst w'. unfold exec. rewrite retry_loop_step. cbv zeta.
    destruct (attempt_outcome _) as [r|e].
    + split; [reflexivity|]. exists [App.EFetch url options].
      simpl. repeat split; auto. unfold App.fetches; simpl; lia.
    + destruct (i <? retries - 1)%nat.
      * specialize (IH (S i) retries url options
                       (App.log (App.ESleep (App.wait_ms i))
                          (App.log (App.EFetch url options) w))).
        cbv zeta in IH. unfold exec in IH.
        destruct IH as (Hs & added & Ht & Hn & Hall).
        split; [exact Hs|].
        exists ([App.EFetch url options; App.ESleep (App.wait_ms i)]
                  ++ added)%list.
        repeat split.
        -- rewrite Ht. simpl. now rewrite <- !app_assoc.
        -- rewrite fetches_app. unfold App.fetches at 1. simpl. lia.
        -- apply Forall_app. split; [|exact Hall].
           constructor; [now left|].
           constructor; [right; now eexists | constructor].
      * split; [reflexivity|]. exists [App.EFetch url options].
        simpl. repeat split; auto. unfold App.fetches; simpl; lia.
Qed.

Lemma fetches_log_fetch (url : string) (options : RequestInit) (w : App.World) :
  App.fetches (App.trace (App.log (App.EFetch url options) w))
  = S (App.fetches (App.trace w)).
Proof. simpl. rewrite fetches_app. unfold App.fetches at 2. simpl. lia. Qed.

Lemma fetches_log_sleep (ms : Z) (w : App.World) :
  App.fetches (App.trace (App.log (App.ESleep ms) w))
  = App.fetches (App.trace w).
Proof. simpl. rewrite fetches_app. unfold App.fetches at 2. simpl. lia. Qed.

End RetryFacts.

(** C1.  With the default of three attempts, [fetchWithRetry] calls the
    network once, twice or three times and never more.  An attempt fails
    when [fetch] rejects or the status is not a success; after the first
    failure the handler waits 1000 ms, after the second 2000 ms, and tries
    again.  The first attempt that succeeds ends the loop with what
    [response.json()] gives; when the third attempt fails, its own error is
    what the handler throws.  The React state is not touched. *)
Theorem fetchWithRetry_at_most_three_attempts :
  forall (P : Platform) (url : string) (options : RequestInit) (w : App.World),
    let n := App.fetches (App.trace w) in
    let call := App.EFetch url options in
    let try k := attempt_outcome (fetch (n + k) url options) in
    let run := App.fetchWithRetry url options App.default_retries w in
    let after added := App.mkWorld (App.state w) (App.trace w ++ added) in
    App.fetches (App.trace (snd run)) <= n + 3 /\
    match try 0 with
    | Ok r0 => run = (json r0, after [call])
    | Throw _ =>
        match try 1 with
        | Ok r1 => run = (json r1, after [call; App.ESleep 1000; call])
        | Throw _ =>
            match try 2 with
            | Ok r2 =>
                run = (json r2,
                       after [call; App.ESleep 1000; call; App.ESleep 2000; call])
            | Throw e2 =>
                run = (Throw e2,
                       after [call; App.ESleep 1000; call; App.ESleep 2000; call])
            end
        end
    end.
Proof.
  intros P url options w n call try run after. split.
  - destruct (retry_loop_frame 3 0 3 url options w) as (_ & added & Ht & Hn & _).
    subst run. unfold App.fetchWithRetry, App.default_retries.
    unfold exec in Ht. rewrite Ht, fetches_app. subst n. lia.
  - subst run try. unfold App.fetchWithRetry, App.default_retries.
    rewrite retry_loop_step. cbv zeta. fold n. rewrite Nat.add_0_r.
    destruct (attempt_outcome (fetch n url options)) as [r0|e0];
      [reflexivity|].
    cbn [Nat.ltb Nat.leb Nat.sub].
    rewrite retry_loop_step. cbv zeta.
    rewrite fetches_log_sleep, fetches_log_fetch. fold n.
    replace (n + 1) with (S n) by lia.
    destruct (attempt_outcome (fetch (S n) url options)) as [r1|e1].
    { subst after call. unfold App.log. simpl. now rewrite <- !app_assoc. }
    cbn [Nat.ltb Nat.leb Nat.sub].
    rewrite retry_loop_step. cbv zeta.
    rewrite fetches_log_sleep, fetches_log_fetch,
      fetches_log_sleep, fetches_log_fetch. fold n.
    replace (n + 2) with (S (S n)) by lia.
    destruct (attempt_outcome (fetch (S (S n)) url options)) as [r2|e2].
    { subst after call. unfold App.log. simpl. now rewrite <- !app_assoc. }
    cbn [Nat.ltb Nat.leb Nat.sub].
    subst after call. unfold App.log. simpl. now rewrite <- !app_assoc.
Qed.

(* ================================================================== *)
(** ** The analysis pipeline *)

Section AnalysisFacts.
Context {P : Platform}.

Lemma is_empty_false (s : string) : s <> "" -> Str.is_empty s = false.
Proof. destruct s; [congruence | reflexivity]. Qed.

(** [analyzeResume] past its guard: the four setters, the [try] block,
    the [catch] and the [finally]. *)
Lemma analyzeResume_run (w : App.World) :
  App.resumeText (App.state w) <> "" ->
  App.jobDescription (App.state w) <> "" ->
  App.analyzeResume w
  = (Ok tt,
     App.upd (App.setLoading false)
       (match App.analyze_try (App.resumeText (App.state w))
                (App.jobDescription (App.state w)) (started w) with
        | (Ok _, w2) => w2
        | (Throw e, w2) => App.upd (App.setApiError (App.analysis_failed e)) w2
        end)).
Proof.
  intros Hr Hj. unfold App.analyzeResume.
  rewrite (is_empty_false Hr), (is_empty_false Hj). cbn [orb].
  unfold bind, modify, finally, try_catch. fold (started w).
  destruct (App.analyze_try _ _ (started w)) as [[[]|e] w2]; reflexivity.
Qed.

(** The [try] block when the API key is set. *)
Lemma analyze_try_run (resume job key : string) (w : App.World) :
  VITE_GEMINI_API_KEY = Some key -> key <> "" ->
  App.analyze_try resume job w
  = match App.fetchWithRetry (App.apiUrl key) (App.request resume job)
            App.default_retries w with
    | (Throw e, w2) => (Throw e, w2)
    | (Ok envelope, w2) =>
        match App.extractJSON envelope with
        | Throw e => (Throw e, w2)
        | Ok parsed =>
            if String.eqb (Js.typeof (Js.get parsed "matchPercentage")) "number"
            then (Ok tt, App.upd (App.setAnalysis parsed) w2)
            else (Throw (Error App.missing_matchPercentage), w2)
        end
    end.
Proof.
  intros Hk Hne. unfold App.analyze_try. rewrite Hk, (is_empty_false Hne).
  unfold bind at 1. unfold ret at 1. unfold bind at 1.
  destruct (App.fetchWithRetry _ _ _ w) as [[envelope|e] w2]; [|reflexivity].
  unfold bind, lift.
  destruct (App.extractJSON envelope) as [parsed|e]; [|reflexivity].
  destruct (String.eqb _ "number"); reflexivity.
Qed.

(** [extractJSON] on an envelope that carries a non-empty text blob. *)
Lemma extractJSON_text (envelope : JValue) (txt : string) :
  nested_text envelope = VStr txt -> txt <> "" ->
  App.extractJSON envelope
  = match JSON_parse txt with
    | Throw e => Throw (Error ("Failed to process analysis: " ++ message e))
    | Ok parsed =>
        if Js.truthy parsed && String.eqb (Js.typeof parsed) "object"
        then Ok parsed
        else Throw (Error ("Failed to process analysis: " ++ App.invalid_or_empty))
    end.
Proof.
  intros Ht Hne. unfold App.extractJSON, App.extractJSON_try, Js.get_strict.
  assert (Hn : Js.nullish envelope = false).
  { destruct envelope; try reflexivity; discriminate Ht. }
  rewrite Hn. fold (nested_text envelope). rewrite Ht.
  cbn [Js.truthy Conv.ToString]. rewrite (is_empty_false Hne). cbn [negb].
  destruct (JSON_parse txt) as [parsed|e]; [|reflexivity].
  destruct (Js.truthy parsed && String.eqb (Js.typeof parsed) "object");
    reflexivity.
Qed.

(** [extractJSON] on an envelope without a usable text blob. *)
Lemma extractJSON_no_text (envelope : JValue) :
  Js.nullish envelope = false ->
  Js.truthy (nested_text envelope) = false ->
  App.extractJSON envelope
  = Throw (Error ("Failed to process analysis: " ++ App.invalid_or_empty)).
Proof.
  intros Hn Hf. unfold App.extractJSON, App.extractJSON_try, Js.get_strict.
  rewrite Hn. fold (nested_text envelope). now rewrite Hf.
Qed.

(** The whole of [analyzeResume], once the transport has answered. *)
Lemma analyzeResume_after_fetch (w w2 : App.World) (key : string)
      (envelope : JValue) :
  App.resumeText (App.state w) <> "" ->
  App.jobDescription (App.state w) <> "" ->
  VITE_GEMINI_API_KEY = Some key -> key <> "" ->
  App.fetchWithRetry (App.apiUrl key)
    (App.request (App.resumeText (App.state w))
                 (App.jobDescription (App.state w)))
    App.default_retries (started w) = (Ok envelope, w2) ->
  App.state (exec App.analyzeResume w)
  = let s := App.state w in
    match App.extractJSON envelope with
    | Throw e =>
        App.mkState (App.resumeText s) (App.jobDescription s) VNull false
          (App.analysis_failed e) (App.resumeText s)
    | Ok parsed =>
        if String.eqb (Js.typeof (Js.get parsed "matchPercentage")) "number"
        then App.mkState (App.resumeText s) (App.jobDescription s) parsed
               false "" (App.resumeText s)
        else App.mkState (App.resumeText s) (App.jobDescription s) VNull
               false (App.analysis_failed (Error App.missing_matchPercentage))
               (App.resumeText s)
    end.
Proof.
  intros Hr Hj Hk Hne Hf. unfold exec.
  rewrite (analyzeResume_run w Hr Hj), (analyze_try_run _ _ _ Hk Hne), Hf.
  pose proof (retry_loop_frame 3 0 3 (App.apiUrl key)
                (App.request (App.resumeText (App.state w))
                             (App.jobDescription (App.state w)))
                (started w)) as [Hs _].
  unfold exec in Hs.
  change (App.retry_loop 3 0 3) with
    (fun u o => App.fetchWithRetry u o App.default_retries) in Hs.
  cbv beta in Hs. rewrite Hf in Hs. cbn [snd] in Hs.
  cbv zeta.
  destruct (App.extractJSON envelope) as [parsed|e].
  - destruct (String.eqb _ "number"); cbn [snd App.upd App.state];
      rewrite Hs; reflexivity.
  - cbn [snd App.upd App.state]. rewrite Hs. reflexivity.
Qed.

End AnalysisFacts.

Section RequestFacts.
Context {P : Platform}.

(** Every call [analyzeResume] adds to the trace carries the request built
    from the two texts. *)
Lemma analyze_try_calls (resume job : string) (w : App.World) :
  exists added,
    App.trace (snd (App.analyze_try resume job w))
    = (App.trace w ++ added)%list /\
    Forall (fun e => forall url options,
              e = App.EFetch url options -> options = App.request resume job)
           added.
Proof.
  destruct VITE_GEMINI_API_KEY as [key|] eqn:Hk.
  - destruct key as [|c key'] eqn:Ek.
    + exists []. unfold App.analyze_try. rewrite Hk. simpl.
      now rewrite app_nil_r.
    + rewrite (analyze_try_run resume job w Hk) by discriminate.
      destruct (retry_loop_frame 3 0 3 (App.apiUrl (String c key'))
                  (App.request resume job) w) as (_ & added & Ht & _ & Hall).
      unfold exec in Ht.
      change (App.retry_loop 3 0 3) with
        (fun u o => App.fetchWithRetry u o App.default_retries) in Ht.
      cbv beta in Ht.
      exists added. split.
      * destruct (App.fetchWithRetry _ _ _ w) as [[envelope|e] w2];
          [|exact Ht].
        destruct (App.extractJSON envelope) as [parsed|e]; [|exact Ht].
        destruct (String.eqb _ "number"); exact Ht.
      * eapply Forall_impl; [|exact Hall].
        intros e [He|[ms He]] url options E; subst e.
        -- now injection E as _ <-.
        -- discriminate E.
  - exists []. unfold App.analyze_try. rewrite Hk. simpl.
    now rewrite app_nil_r.
Qed.

End RequestFacts.

(** C3.  When the transport has answered with an envelope whose text blob
    parses to an object without a numeric [matchPercentage], the [try]
    block of [analyzeResume] throws the missing-matchPercentage error;
    afterwards the stored analysis is [null], the error message is set, the
    loading flag is off and the results panel shows no report. *)
Theorem missing_matchPercentage_sets_error :
  forall (P : Platform) (w w2 : App.World) (key txt : string)
         (envelope : JValue) (props : list (string * JValue)),
    App.resumeText (App.state w) <> "" ->
    App.jobDescription (App.state w) <> "" ->
    VITE_GEMINI_API_KEY = Some key -> key <> "" ->
    App.fetchWithRetry (App.apiUrl key)
      (App.request (App.resumeText (App.state w))
                   (App.jobDescription (App.state w)))
      App.default_retries (started w) = (Ok envelope, w2) ->
    nested_text envelope = VStr txt -> txt <> "" ->
    JSON_parse txt = Ok (VObj props) ->
    (forall n, Js.lookup "matchPercentage" props <> VNum n) ->
    fst (App.analyze_try (App.resumeText (App.state w))
           (App.jobDescription (App.state w)) (started w))
      = Throw (Error App.missing_matchPercentage) /\
    App.analysis (App.state (exec App.analyzeResume w)) = VNull /\
    App.apiError (App.state (exec App.analyzeResume w))
      = "Analysis failed: Invalid analysis format received - missing matchPercentage. Please try again with different content." /\
    App.loading (App.state (exec App.analyzeResume w)) = false /\
    AnalysisResults.of_state (App.state (exec App.analyzeResume w))
      = Ok AnalysisResults.ClickAnalyze.
Proof.
  intros P w w2 key txt envelope props Hr Hj Hk Hne Hf Ht Htne Hp Hno.
  assert (Hx : App.extractJSON envelope = Ok (VObj props)).
  { rewrite (extractJSON_text envelope Ht Htne), Hp. reflexivity. }
  assert (Hg : String.eqb
                 (Js.typeof (Js.get (VObj props) "matchPercentage")) "number"
               = false).
  { cbn [Js.get].
    destruct (Js.lookup "matchPercentage" props) eqn:E; try reflexivity.
    now destruct (Hno n). }
  split.
  - rewrite (analyze_try_run _ _ _ Hk Hne), Hf, Hx, Hg. reflexivity.
  - rewrite (analyzeResume_after_fetch w Hr Hj Hk Hne Hf), Hx.
    cbv zeta. rewrite Hg. cbn [App.analysis App.apiError App.loading].
    repeat split. unfold AnalysisResults.of_state, AnalysisResults.AnalysisResults.
    cbn [App.analysis App.loading App.resumeText App.jobDescription].
    rewrite (is_empty_false Hr), (is_empty_false Hj). reflexivity.
Qed.

Lemma missing_matchPercentage_witness :
  App.apiError
    (App.state
       (exec (App.analyzeResume
                (P := Sample.platform [Sample.ok_response (VStr Sample.text_ats)]))
             Sample.app0))
  = "Analysis failed: Invalid analysis format received - missing matchPercentage. Please try again with different content.".
Proof.
  eapply (missing_matchPercentage_sets_error
            (Sample.platform [Sample.ok_response (VStr Sample.text_ats)])
            Sample.app0 (key := "key") (txt := Sample.text_ats)
            (props := [("atsScore", VNum (Num.of_Z 72))])).
  - discriminate.
  - discriminate.
  - reflexivity.
  - discriminate.
  - reflexivity.
  - reflexivity.
  - discriminate.
  - reflexivity.
  - intros n H. discriminate H.
Defined.

(** C6.  When the text blob parses to an object with a numeric
    [matchPercentage] and none of the other declared fields, the pipeline
    stores that object, so the match percentage read from it is the number
    sent; the results panel renders, showing that number, zero for the ATS
    score and the four sub-scores, the empty summary and empty lists;
    [getSafeScore] gives 0 for every row and the ATS badge has no score.
    Nothing throws and no error message is set. *)
Theorem only_matchPercentage_defaults_the_rest :
  forall (P : Platform) (w w2 : App.World) (key txt : string)
         (envelope : JValue) (props : list (string * JValue))
         (n : Num.number),
    App.resumeText (App.state w) <> "" ->
    App.jobDescription (App.state w) <> "" ->
    VITE_GEMINI_API_KEY = Some key -> key <> "" ->
    App.fetchWithRetry (App.apiUrl key)
      (App.request (App.resumeText (App.state w))
                   (App.jobDescription (App.state w)))
      App.default_retries (started w) = (Ok envelope, w2) ->
    nested_text envelope = VStr txt -> txt <> "" ->
    JSON_parse txt = Ok (VObj props) ->
    Js.lookup "matchPercentage" props = VNum n ->
    (forall name, In name other_fields -> Js.lookup name props = VUndefined) ->
    App.analyzeResume w = (Ok tt, exec App.analyzeResume w) /\
    App.analysis (App.state (exec App.analyzeResume w)) = VObj props /\
    Js.get (App.analysis (App.state (exec App.analyzeResume w))) "matchPercentage"
      = VNum n /\
    App.apiError (App.state (exec App.analyzeResume w)) = "" /\
    AnalysisResults.of_state (App.state (exec App.analyzeResume w))
      = Ok (AnalysisResults.Shown (default_report (VNum n))) /\
    (forall name,
       ScoreBreakdown.getSafeScore
         (Js.get (App.analysis (App.state (exec App.analyzeResume w)))
                 "scoreBreakdown") name = Ok Num.zero) /\
    ATSCompatibility.normalizedScore
      (Js.get (App.analysis (App.state (exec App.analyzeResume w))) "atsScore")
      = None.
Proof.
  intros P w w2 key txt envelope props n Hr Hj Hk Hne Hf Ht Htne Hp Hm Ho.
  assert (Hx : App.extractJSON envelope = Ok (VObj props)).
  { rewrite (extractJSON_text envelope Ht Htne), Hp. reflexivity. }
  split.
  { unfold exec. rewrite (analyzeResume_run w Hr Hj). reflexivity. }
  rewrite (analyzeResume_after_fetch w Hr Hj Hk Hne Hf), Hx.
  cbv zeta. cbn [Js.get]. rewrite Hm. cbn [Js.typeof String.eqb Ascii.eqb Bool.eqb].
  cbn [App.analysis App.apiError Js.get].
  assert (H1 := Ho "scoreBreakdown"). assert (H2 := Ho "atsScore").
  assert (H3 := Ho "missingKeywords"). assert (H4 := Ho "sectionFeedback").
  assert (H5 := Ho "strengths"). assert (H6 := Ho "weaknesses").
  assert (H7 := Ho "keyChanges"). assert (H8 := Ho "summary").
  unfold other_fields in *.
  rewrite H1, H2 by (simpl; tauto).
  repeat split; try assumption.
  unfold AnalysisResults.of_state, AnalysisResults.AnalysisResults.
  cbn [App.analysis App.loading App.resumeText App.jobDescription].
  rewrite (is_empty_false Hr), (is_empty_false Hj).
  cbn [negb andb Js.truthy Js.or_else Js.get].
  rewrite Hm, H1, H2, H3, H4, H5, H6, H7, H8 by (simpl; tauto).
  reflexivity.
Qed.

Lemma only_matchPercentage_witness :
  AnalysisResults.of_state
    (P := Sample.platform [Sample.ok_response (VStr Sample.text_72)])
    (App.state
       (exec (App.analyzeResume
                (P := Sample.platform [Sample.ok_response (VStr Sample.text_72)]))
             Sample.app0))
  = Ok (AnalysisResults.Shown (default_report (VNum (Num.of_Z 72)))).
Proof.
  eapply (only_matchPercentage_defaults_the_rest
            (Sample.platform [Sample.ok_response (VStr Sample.text_72)])
            Sample.app0 (key := "key") (txt := Sample.text_72)
            (props := [("matchPercentage", VNum (Num.of_Z 72))])).
  - discriminate.
  - discriminate.
  - reflexivity.
  - discriminate.
  - reflexivity.
  - reflexivity.
  - discriminate.
  - reflexivity.
  - reflexivity.
  - intros name H. simpl in H.
    repeat (destruct H as [<-|H]; [reflexivity|]). destruct H.
Defined.

(** C8.  With an empty résumé text or an empty job description,
    [analyzeResume] returns at once: the whole state, the analysis, loading
    flag and error message included, is as before, and the trace shows no
    network call and no timer. *)
Theorem analyzeResume_noop_when_text_missing :
  forall (P : Platform) (w : App.World),
    App.resumeText (App.state w) = "" \/ App.jobDescription (App.state w) = "" ->
    App.analyzeResume w = (Ok tt, w).
Proof.
  intros P w [H|H]; unfold App.analyzeResume; rewrite H.
  - reflexivity.
  - now rewrite orb_true_r.
Qed.

Lemma analyzeResume_noop_witness :
  App.analyzeResume (P := Sample.platform [])
    (App.mkWorld (App.mkState "my resume" "" (VStr "kept") true "kept" "") [])
  = (Ok tt,
     App.mkWorld (App.mkState "my resume" "" (VStr "kept") true "kept" "") []).
Proof.
  apply (analyzeResume_noop_when_text_missing (Sample.platform [])).
  right. reflexivity.
Defined.

(** C4.  For non-empty texts, the prompt of the constructed request embeds
    a prefix of the résumé text whose length is the smaller of the text's
    length and 10,000, and a prefix of the job description whose length is
    the smaller of its length and 5,000; a text within its cap is embedded
    whole.  Every network call [analyzeResume] makes carries that
    request. *)
Theorem request_texts_are_capped_prefixes :
  forall (P : Platform) (w : App.World),
    let resume := App.resumeText (App.state w) in
    let job := App.jobDescription (App.state w) in
    resume <> "" -> job <> "" ->
    exists r j,
      contents_text (body (App.request resume job))
        = App.prompt_head ++ r ++ App.prompt_mid ++ j /\
      (forall url options,
         In (App.EFetch url options) (App.trace (exec App.analyzeResume w)) ->
         In (App.EFetch url options) (App.trace w) \/
         options = App.request resume job) /\
      (exists rest, resume = r ++ rest) /\
      Z.of_nat (String.length r) = Z.min (Z.of_nat (String.length resume)) 10000 /\
      ((Z.of_nat (String.length resume) <= 10000)%Z -> r = resume) /\
      (exists rest, job = j ++ rest) /\
      Z.of_nat (String.length j) = Z.min (Z.of_nat (String.length job)) 5000 /\
      ((Z.of_nat (String.length job) <= 5000)%Z -> j = job).
Proof.
  intros P w resume job Hr Hj.
  exists (Str.substring resume 0 10000), (Str.substring job 0 5000).
  split; [reflexivity|]. split.
  - intros url options Hin. unfold exec in Hin.
    rewrite (analyzeResume_run w Hr Hj) in Hin. cbn [snd] in Hin.
    fold resume job in Hin.
    destruct (analyze_try_calls resume job (started w)) as (added & Ht & Hall).
    assert (Htr : App.trace
                    (App.upd (App.setLoading false)
                       (match App.analyze_try resume job (started w) with
                        | (Ok _, w2) => w2
                        | (Throw e, w2) =>
                            App.upd (App.setApiError (App.analysis_failed e)) w2
                        end))
                  = (App.trace w ++ added)%list).
    { destruct (App.analyze_try resume job (started w)) as [[[]|e] w2];
        exact Ht. }
    rewrite Htr in Hin. apply in_app_or in Hin. destruct Hin as [Hin|Hin].
    + now left.
    + right. rewrite Forall_forall in Hall. exact (Hall _ Hin url options eq_refl).
  - repeat split.
    + apply substring_cap_prefix. lia.
    + apply substring_cap_length. lia.
    + apply substring_cap_small.
    + apply substring_cap_prefix. lia.
    + apply substring_cap_length. lia.
    + apply substring_cap_small.
Qed.

Lemma request_texts_witness :
  exists r j,
    contents_text (body (App.request "my resume" "the job"))
      = App.prompt_head ++ r ++ App.prompt_mid ++ j /\
    (forall url options,
       In (App.EFetch url options)
          (App.trace (exec (App.analyzeResume (P := Sample.platform []))
                           Sample.app0)) ->
       In (App.EFetch url options) (App.trace Sample.app0) \/
       options = App.request "my resume" "the job") /\
    (exists rest, "my resume" = r ++ rest) /\
    Z.of_nat (String.length r) = Z.min (Z.of_nat (String.length "my resume")) 10000 /\
    ((Z.of_nat (String.length "my resume") <= 10000)%Z -> r = "my resume") /\
    (exists rest, "the job" = j ++ rest) /\
    Z.of_nat (String.length j) = Z.min (Z.of_nat (String.length "the job")) 5000 /\
    ((Z.of_nat (String.length "the job") <= 5000)%Z -> j = "the job").
Proof.
  apply (request_texts_are_capped_prefixes (Sample.platform []) Sample.app0);
    discriminate.
Defined.

(** C10 (amended).  A text blob whose parse is not [null] and has type
    object, an array included, is returned as parsed.  For an envelope
    that is not [null] or [undefined], a blob that is absent or empty, or
    that parses to [null] or to a value of another type, makes
    [extractJSON] throw the invalid-or-empty-response error, under the
    prefix every error of [extractJSON] gets.  When the envelope itself is
    [null] or [undefined], reading its [candidates] throws a TypeError, and
    [extractJSON] throws that message under the same prefix.  A parsed
    array passes [extractJSON] and is turned down by the [matchPercentage]
    test of [analyzeResume]. *)
Theorem extractJSON_returns_objects_and_arrays :
  forall (P : Platform) (envelope : JValue),
    (forall txt parsed,
       nested_text envelope = VStr txt -> txt <> "" ->
       JSON_parse txt = Ok parsed ->
       parsed <> VNull -> Js.typeof parsed = "object" ->
       App.extractJSON envelope = Ok parsed) /\
    (Js.nullish envelope = false ->
     nested_text envelope = VUndefined \/ nested_text envelope = VStr "" ->
     App.extractJSON envelope
     = Throw (Error "Failed to process analysis: API returned an invalid or empty structured response.")) /\
    (Js.nullish envelope = true ->
     nested_text envelope = VUndefined /\
     App.extractJSON envelope
     = Throw (Error ("Failed to process analysis: Cannot read properties of "
                     ++ match envelope with VNull => "null" | _ => "undefined" end
                     ++ " (reading 'candidates')"))) /\
    (forall txt parsed,
       nested_text envelope = VStr txt -> txt <> "" ->
       JSON_parse txt = Ok parsed ->
       parsed = VNull \/ Js.typeof parsed <> "object" ->
       App.extractJSON envelope
       = Throw (Error "Failed to process analysis: API returned an invalid or empty structured response.")) /\
    (forall txt elems (w w2 : App.World) key,
       nested_text envelope = VStr txt -> txt <> "" ->
       JSON_parse txt = Ok (VArr elems) ->
       App.resumeText (App.state w) <> "" ->
       App.jobDescription (App.state w) <> "" ->
       VITE_GEMINI_API_KEY = Some key -> key <> "" ->
       App.fetchWithRetry (App.apiUrl key)
         (App.request (App.resumeText (App.state w))
                      (App.jobDescription (App.state w)))
         App.default_retries (started w) = (Ok envelope, w2) ->
       App.extractJSON envelope = Ok (VArr elems) /\
       App.analysis (App.state (exec App.analyzeResume w)) = VNull /\
       App.apiError (App.state (exec App.analyzeResume w))
       = App.analysis_failed (Error App.missing_matchPercentage)).
Proof.
  intros P envelope. split; [|split; [|split; [|split]]].
  - intros txt parsed Ht Hne Hp Hnull Hobj.
    rewrite (extractJSON_text envelope Ht Hne), Hp, Hobj.
    destruct parsed; try discriminate Hobj; try reflexivity.
    now destruct Hnull.
  - intros Hn [H|H]; apply extractJSON_no_text; try exact Hn; now rewrite H.
  - intros Hn. destruct envelope; try discriminate Hn; split; reflexivity.
  - intros txt parsed Ht Hne Hp Hbad.
    rewrite (extractJSON_text envelope Ht Hne), Hp.
    destruct Hbad as [->|Hty]; [reflexivity|].
    apply String.eqb_neq in Hty. rewrite Hty. now rewrite andb_false_r.
  - intros txt elems w w2 key Ht Hne Hp Hr Hj Hk Hkne Hf.
    assert (Hx : App.extractJSON envelope = Ok (VArr elems)).
    { rewrite (extractJSON_text envelope Ht Hne), Hp. reflexivity. }
    split; [exact Hx|].
    rewrite (analyzeResume_after_fetch w Hr Hj Hk Hkne Hf), Hx.
    split; reflexivity.
Qed.

Lemma extractJSON_witness :
  App.extractJSON (P := Sample.platform []) (Sample.envelope (VStr "[]"))
  = Ok (VArr []) /\
  App.extractJSON (P := Sample.platform []) (VObj [])
  = Throw (Error "Failed to process analysis: API returned an invalid or empty structured response.") /\
  App.extractJSON (P := Sample.platform []) VUndefined
  = Throw (Error "Failed to process analysis: Cannot read properties of undefined (reading 'candidates')").
Proof.
  destruct (extractJSON_returns_objects_and_arrays (Sample.platform [])
              (Sample.envelope (VStr "[]"))) as (H1 & _).
  destruct (extractJSON_returns_objects_and_arrays (Sample.platform [])
              (VObj [])) as (_ & H2 & _).
  destruct (extractJSON_returns_objects_and_arrays (Sample.platform [])
              VUndefined) as (_ & _ & H3 & _).
  split; [|split].
  - apply (H1 "[]" (VArr [])); try reflexivity; discriminate.
  - apply H2; [reflexivity | left; reflexivity].
  - apply (H3 eq_refl).
Defined.

(** C10 fails as stated: a response with status 200 and the body [null]
    has no text blob, and what [extractJSON] throws is not the
    invalid-or-empty-response error but the TypeError of reading
    [candidates] of [null], which [analyzeResume] then shows. *)
Lemma null_envelope_throws_the_type_error :
  nested_text VNull = VUndefined /\
  App.extractJSON (P := Sample.platform []) VNull
  = Throw (Error "Failed to process analysis: Cannot read properties of null (reading 'candidates')") /\
  App.extractJSON (P := Sample.platform []) VNull
  <> Throw (Error "Failed to process analysis: API returned an invalid or empty structured response.") /\
  App.apiError
    (App.state
       (exec (App.analyzeResume
                (P := Sample.platform [Responded (mkResponse 200 (Ok VNull))]))
             Sample.app0))
  = "Analysis failed: Failed to process analysis: Cannot read properties of null (reading 'candidates'). Please try again with different content.".
Proof.
  split; [reflexivity|]. split; [reflexivity|]. split; [|reflexivity].
  intros H. discriminate H.
Qed.

(* ================================================================== *)
(** ** Scores on display *)

Section NumberFacts.

(** Comparing the other way round gives the opposite answer. *)
Lemma SFcompare_swap (x y : Num.number) :
  SFcompare y x = option_map CompOpp (SFcompare x y).
Proof.
  destruct x as [sx|sx| |sx mx ex], y as [sy|sy| |sy my ey];
    try destruct sx; try destruct sy; try reflexivity;
    cbn [SFcompare option_map];
    rewrite (Z.compare_antisym ex ey);
    destruct (ex ?= ey)%Z; cbn [CompOpp]; try reflexivity;
    rewrite ?CompOpp_involutive;
    now rewrite Pos.compare_cont_antisym.
Qed.

Lemma lt_le (x y : Num.number) : Num.lt x y = true -> Num.le x y = true.
Proof.
  unfold Num.lt, Num.le, SFltb, SFleb.
  destruct (SFcompare x y) as [[]|]; congruence.
Qed.

Lemma compare_not_nan (x y : Num.number) :
  Num.isNaN x = false -> Num.isNaN y = false -> SFcompare x y <> None.
Proof.
  destruct x as [sx|sx| |sx mx ex], y as [sy|sy| |sy my ey];
    intros Hx Hy; try discriminate Hx; try discriminate Hy;
    try destruct sx; try destruct sy; discriminate.
Qed.

(** Two numbers neither of which is below the other compare as equal. *)
Lemma neither_lt_le (x y : Num.number) :
  Num.isNaN x = false -> Num.isNaN y = false ->
  Num.lt x y = false -> Num.lt y x = false ->
  Num.le x y = true /\ Num.le y x = true.
Proof.
  intros Hx Hy. pose proof (compare_not_nan x y Hx Hy) as Hc.
  unfold Num.lt, Num.le, SFltb, SFleb. rewrite (SFcompare_swap x y).
  destruct (SFcompare x y) as [[]|]; cbn [option_map CompOpp];
    try congruence; auto.
Qed.

Lemma max_zero_low (x : Num.number) :
  Num.isNaN x = false ->
  Num.isNaN (Num.Math_max x Num.zero) = false /\
  Num.le Num.zero (Num.Math_max x Num.zero) = true.
Proof.
  intros Hx. unfold Num.Math_max. rewrite Hx.
  change (Num.isNaN Num.zero) with false. cbn [orb].
  destruct (Num.lt x Num.zero) eqn:H1; [split; reflexivity|].
  destruct (Num.lt Num.zero x) eqn:H2.
  - split; [exact Hx | now apply lt_le].
  - destruct (neither_lt_le x Num.zero Hx eq_refl H1 H2) as [_ Hle].
    destruct x; (split; [assumption | exact Hle]).
Qed.

Lemma min_hundred_range (y : Num.number) :
  Num.isNaN y = false -> Num.le Num.zero y = true ->
  Num.in_0_100 (Num.Math_min y Num.hundred).
Proof.
  intros Hy Hlow. unfold Num.Math_min, Num.in_0_100. rewrite Hy.
  change (Num.isNaN Num.hundred) with false. cbn [orb].
  destruct (Num.lt y Num.hundred) eqn:H1.
  - split; [exact Hlow | now apply lt_le].
  - destruct (Num.lt Num.hundred y) eqn:H2; [split; reflexivity|].
    destruct (neither_lt_le y Num.hundred Hy eq_refl H1 H2) as [Hle _].
    destruct y; split; assumption.
Qed.

(** The clamp of both score components lands in 0..100. *)
Lemma clamp_in_range (x : Num.number) :
  Num.isNaN x = false -> Num.in_0_100 (Num.clamp_0_100 x).
Proof.
  intros Hx. destruct (max_zero_low x Hx) as [Hn Hl].
  now apply min_hundred_range.
Qed.

Lemma zero_in_range : Num.in_0_100 Num.zero.
Proof. split; reflexivity. Qed.

End NumberFacts.

Section ClampFacts.

Lemma lt_not_nan (a b : Num.number) :
  Num.lt a b = true -> Num.isNaN a = false /\ Num.isNaN b = false.
Proof.
  unfold Num.lt, SFltb.
  destruct a as [sa|sa| |sa ma ea], b as [sb|sb| |sb mb eb];
    intros H; try discriminate H; split; reflexivity.
Qed.

Lemma lt_asym (a b : Num.number) : Num.lt a b = true -> Num.lt b a = false.
Proof.
  unfold Num.lt, SFltb. rewrite (SFcompare_swap a b).
  destruct (SFcompare a b) as [[]|]; cbn; congruence.
Qed.

Lemma le_not_gt (a b : Num.number) : Num.le a b = true -> Num.lt b a = false.
Proof.
  unfold Num.le, Num.lt, SFleb, SFltb. rewrite (SFcompare_swap a b).
  destruct (SFcompare a b) as [[]|]; cbn; congruence.
Qed.

(** Above zero, [Math.max(x, 0)] is [x]. *)
Lemma max_zero_of_positive (x : Num.number) :
  Num.lt Num.zero x = true -> Num.Math_max x Num.zero = x.
Proof.
  intros H. destruct (lt_not_nan _ _ H) as [_ Hx].
  unfold Num.Math_max. rewrite Hx, (lt_asym _ _ H), H. reflexivity.
Qed.

(** A number above 100 is above 0. *)
Lemma above_hundred_positive (x : Num.number) :
  Num.lt Num.hundred x = true -> Num.lt Num.zero x = true.
Proof.
  destruct x as [s|s| |s m e]; try destruct s; intros H;
    try discriminate H; reflexivity.
Qed.

Lemma clamp_above (x : Num.number) :
  Num.lt Num.hundred x = true -> Num.clamp_0_100 x = Num.hundred.
Proof.
  intros H. unfold Num.clamp_0_100.
  rewrite (max_zero_of_positive x (above_hundred_positive x H)).
  destruct (lt_not_nan _ _ H) as [_ Hx].
  unfold Num.Math_min. rewrite Hx, (lt_asym _ _ H), H. reflexivity.
Qed.

Lemma clamp_below (x : Num.number) :
  Num.lt x Num.zero = true -> Num.clamp_0_100 x = Num.zero.
Proof.
  intros H. destruct (lt_not_nan _ _ H) as [Hx _].
  unfold Num.clamp_0_100, Num.Math_max. rewrite Hx, H. reflexivity.
Qed.

Lemma clamp_zero (x : Num.number) :
  Num.is_zero x = true -> Num.clamp_0_100 x = Num.zero.
Proof. destruct x as [[]|s| |s m e]; intros H; try discriminate H; reflexivity. Qed.

Lemma clamp_within (x : Num.number) :
  Num.le Num.zero x = true -> Num.le x Num.hundred = true ->
  Num.is_zero x = false ->
  Num.clamp_0_100 x = x.
Proof.
  intros Hlo Hhi Hz.
  assert (Hx : Num.isNaN x = false) by (destruct x; try reflexivity; discriminate Hlo).
  assert (Hmax : Num.Math_max x Num.zero = x).
  { unfold Num.Math_max. rewrite Hx, (le_not_gt _ _ Hlo).
    change (Num.isNaN Num.zero) with false. cbn [orb].
    destruct (Num.lt Num.zero x); [reflexivity|].
    destruct x; try reflexivity. discriminate Hz. }
  unfold Num.clamp_0_100. rewrite Hmax.
  unfold Num.Math_min. rewrite Hx, (le_not_gt _ _ Hhi).
  change (Num.isNaN Num.hundred) with false. cbn [orb].
  destruct (Num.lt x Num.hundred); [reflexivity|].
  destruct x; reflexivity.
Qed.

(** Being at least a positive bound implies being at least a smaller one. *)
Lemma ge_weaken (v : Num.number) (m1 m2 : positive) (e1 e2 : Z) :
  (e2 < e1)%Z \/ (e2 = e1 /\ (m2 <= m1)%positive) ->
  Num.ge v (S754_finite false m1 e1) = true ->
  Num.ge v (S754_finite false m2 e2) = true.
Proof.
  intros Hord. unfold Num.ge, SFleb.
  destruct v as [s|s| |s m e]; try destruct s; cbn [SFcompare];
    try (intros H; discriminate H); try reflexivity.
  change (Pos.compare_cont Eq m1 m) with (m1 ?= m)%positive.
  change (Pos.compare_cont Eq m2 m) with (m2 ?= m)%positive.
  destruct (Z.compare_spec e1 e) as [He|He|He]; intros H.
  - destruct (Z.compare_spec e2 e) as [He2|He2|He2]; try reflexivity; [|lia].
    destruct (Pos.compare_spec m1 m) as [Hm|Hm|Hm]; try discriminate H;
      destruct (Pos.compare_spec m2 m) as [Hm2|Hm2|Hm2]; try reflexivity; lia.
  - destruct (Z.compare_spec e2 e) as [He2|He2|He2]; try reflexivity; lia.
  - discriminate H.
Qed.

Lemma ge_80_60 (v : Num.number) :
  Num.ge v (Num.of_Z 80) = true -> Num.ge v (Num.of_Z 60) = true.
Proof. apply ge_weaken. left. reflexivity. Qed.

Lemma ge_60_40 (v : Num.number) :
  Num.ge v (Num.of_Z 60) = true -> Num.ge v (Num.of_Z 40) = true.
Proof. apply ge_weaken. right. split; [reflexivity | discriminate]. Qed.

(** A number that compares equal to 75 is above 50. *)
Lemma equal_75_above_50 (x : Num.number) :
  SFcompare (Num.of_Z 75) x = Some Eq -> SFcompare (Num.of_Z 50) x = Some Lt.
Proof.
  change (Num.of_Z 75) with (S754_finite false 5277655813324800 (-46)).
  change (Num.of_Z 50) with (S754_finite false 7036874417766400 (-47)).
  destruct x as [s|s| |s m e]; try destruct s; cbn [SFcompare];
    try (intros H; discriminate H).
  destruct (Z.compare_spec (-46) e) as [He|He|He]; intros H;
    try discriminate H.
  destruct (Z.compare_spec (-47) e) as [He2|He2|He2]; try reflexivity; lia.
Qed.

End ClampFacts.

(** C9 (amended).  The two components that clamp keep what they show
    within 0..100.  The ATS badge shows the clamp of a score that is a
    number other than NaN, and no score (N/A) for any other value.
    [getSafeScore] gives 0 when the breakdown is not an object; otherwise
    it converts the row's value to a number, gives 0 when that is NaN and
    the clamp of it when not, and throws the TypeError of the conversion
    when the value is an object that cannot be made a primitive.  The
    clamp turns a number below 0 into 0 and one above 100 into 100 and
    leaves a number from 0 to 100 as it is.  The results panel of App.jsx
    does not clamp: a numeric [matchPercentage] or [atsScore] is shown as
    received. *)
Theorem clamping_components_stay_within_0_100 :
  forall (P : Platform) (score breakdown : JValue) (name : string),
    (forall n, score = VNum n -> Num.isNaN n = false ->
       ATSCompatibility.normalizedScore score = Some (Num.clamp_0_100 n)) /\
    (ATSCompatibility.normalizedScore score = None <->
     forall n, score = VNum n -> Num.isNaN n = true) /\
    (forall shown, ATSCompatibility.normalizedScore score = Some shown ->
                   Num.in_0_100 shown) /\
    (Js.truthy breakdown = false \/ Js.typeof breakdown <> "object" ->
     ScoreBreakdown.getSafeScore breakdown name = Ok Num.zero) /\
    (Js.truthy breakdown = true -> Js.typeof breakdown = "object" ->
     ScoreBreakdown.getSafeScore breakdown name
     = match Conv.ToNumber (Js.get breakdown name) with
       | Throw e => Throw e
       | Ok num =>
           if Num.isNaN num then Ok Num.zero else Ok (Num.clamp_0_100 num)
       end) /\
    (forall props value,
       breakdown = VObj props ->
       Js.lookup name props = VObj value ->
       Js.has_own "toString" value = true ->
       ScoreBreakdown.getSafeScore breakdown name
       = Throw (mkExn "TypeError" "Cannot convert object to primitive value")) /\
    (forall props,
       breakdown = VObj props ->
       (Js.lookup name props = VUndefined ->
        ScoreBreakdown.getSafeScore breakdown name = Ok Num.zero) /\
       (forall n, Js.lookup name props = VNum n ->
          ScoreBreakdown.getSafeScore breakdown name
          = Ok (if Num.isNaN n then Num.zero else Num.clamp_0_100 n)) /\
       (forall s, Js.lookup name props = VStr s ->
          ScoreBreakdown.getSafeScore breakdown name
          = Ok (if Num.isNaN (StringToNumber s) then Num.zero
                else Num.clamp_0_100 (StringToNumber s)))) /\
    (forall shown, ScoreBreakdown.getSafeScore breakdown name = Ok shown ->
                   Num.in_0_100 shown) /\
    (forall x, Num.isNaN x = false ->
       (Num.lt x Num.zero = true -> Num.clamp_0_100 x = Num.zero) /\
       (Num.lt Num.hundred x = true -> Num.clamp_0_100 x = Num.hundred) /\
       (Num.le Num.zero x = true -> Num.le x Num.hundred = true ->
        Num.is_zero x = false -> Num.clamp_0_100 x = x) /\
       (Num.is_zero x = true -> Num.clamp_0_100 x = Num.zero)) /\
    (forall analysis_ r n,
       AnalysisResults.AnalysisResults analysis_ false true
         = Ok (AnalysisResults.Shown r) ->
       (Js.get analysis_ "matchPercentage" = VNum n ->
        AnalysisResults.shown_matchPercentage r = VNum n) /\
       (Js.get analysis_ "atsScore" = VNum n ->
        AnalysisResults.shown_atsScore r = VNum n)).
Proof.
  intros P score breakdown name.
  assert (Hsafe : Js.truthy breakdown = true -> Js.typeof breakdown = "object" ->
                  ScoreBreakdown.getSafeScore breakdown name
                  = match Conv.ToNumber (Js.get breakdown name) with
                    | Throw e => Throw e
                    | Ok num =>
                        if Num.isNaN num then Ok Num.zero
                        else Ok (Num.clamp_0_100 num)
                    end).
  { intros Ht Ho. unfold ScoreBreakdown.getSafeScore.
    rewrite Ht, Ho. cbn [negb orb String.eqb Ascii.eqb Bool.eqb].
    destruct (Js.get breakdown name); reflexivity. }
  assert (Hzero : Js.truthy breakdown = false \/ Js.typeof breakdown <> "object" ->
                  ScoreBreakdown.getSafeScore breakdown name = Ok Num.zero).
  { intros [Ht|Ho]; unfold ScoreBreakdown.getSafeScore.
    - now rewrite Ht.
    - apply String.eqb_neq in Ho. rewrite Ho. now rewrite orb_true_r. }
  split; [|split; [|split; [|split; [|split; [|split; [|split; [|split; [|split]]]]]]]].
  - intros n -> Hn. unfold ATSCompatibility.normalizedScore. now rewrite Hn.
  - unfold ATSCompatibility.normalizedScore. split.
    + intros H n ->. destruct (Num.isNaN n); [reflexivity | discriminate H].
    + intros H. destruct score; try reflexivity.
      now rewrite (H n eq_refl).
  - intros shown H. unfold ATSCompatibility.normalizedScore in H.
    destruct score; try discriminate H.
    destruct (Num.isNaN n) eqn:E; [discriminate H|].
    injection H as <-. now apply clamp_in_range.
  - exact Hzero.
  - exact Hsafe.
  - intros props value -> Hl Hown. rewrite Hsafe by reflexivity.
    cbn [Js.get]. rewrite Hl. cbn [Conv.ToNumber]. now rewrite Hown.
  - intros props ->. rewrite Hsafe by reflexivity. cbn [Js.get].
    split; [|split].
    + intros ->. reflexivity.
    + intros n ->. cbn [Conv.ToNumber]. now destruct (Num.isNaN n).
    + intros s0 ->. cbn [Conv.ToNumber].
      now destruct (Num.isNaN (StringToNumber s0)).
  - intros shown H.
    destruct (Js.truthy breakdown) eqn:Ht;
      [|rewrite Hzero in H by (now left); injection H as <-;
        apply zero_in_range].
    destruct (String.eqb (Js.typeof breakdown) "object") eqn:Ho.
    + apply String.eqb_eq in Ho. rewrite (Hsafe eq_refl Ho) in H.
      destruct (Conv.ToNumber (Js.get breakdown name)) as [num|e];
        [|discriminate H].
      destruct (Num.isNaN num) eqn:E; injection H as <-;
        [apply zero_in_range | now apply clamp_in_range].
    + apply String.eqb_neq in Ho. rewrite Hzero in H by (now right).
      injection H as <-. apply zero_in_range.
  - intros x Hx. repeat split.
    + apply clamp_below.
    + apply clamp_above.
    + apply clamp_within.
    + apply clamp_zero.
  - intros a r n H.
    unfold AnalysisResults.AnalysisResults in H. cbn [negb] in H.
    destruct (Js.truthy a) eqn:Ta; [|discriminate H]. cbn [negb] in H.
    unfold Js.or_else in H. rewrite Ta in H.
    destruct (AnalysisResults.missing_list _) as [missing|e]; [|discriminate H].
    destruct (forallb _ _); [|discriminate H].
    injection H as <-.
    cbn [AnalysisResults.shown_matchPercentage AnalysisResults.shown_atsScore].
    split; intros Hget; now rewrite Hget.
Qed.

Lemma clamping_witness :
  ATSCompatibility.normalizedScore (VNum (Num.of_Z 150)) = Some Num.hundred /\
  ScoreBreakdown.getSafeScore (P := Sample.platform [])
    (VObj [("skills", VObj [("toString", VNum Num.one)])]) "skills"
  = Throw (mkExn "TypeError" "Cannot convert object to primitive value") /\
  ScoreBreakdown.getSafeScore (P := Sample.platform []) VNull "skills"
  = Ok Num.zero.
Proof.
  destruct (clamping_components_stay_within_0_100 (Sample.platform [])
              (VNum (Num.of_Z 150))
              (VObj [("skills", VObj [("toString", VNum Num.one)])]) "skills")
    as (Hats & _ & _ & _ & _ & Hthrow & _).
  destruct (clamping_components_stay_within_0_100 (Sample.platform [])
              VUndefined VNull "skills")
    as (_ & _ & _ & Hzero & _).
  split; [|split].
  - exact (Hats (Num.of_Z 150) eq_refl eq_refl).
  - exact (Hthrow [("skills", VObj [("toString", VNum Num.one)])]
             [("toString", VNum Num.one)] eq_refl eq_refl eq_refl).
  - apply Hzero. left. reflexivity.
Defined.

(** C9 fails as stated: the results panel of App.jsx shows a match
    percentage of 150 as it came, and 150 is above 100. *)
Lemma results_panel_shows_150 :
  AnalysisResults.AnalysisResults (P := Sample.platform [])
    (VObj [("matchPercentage", VNum (Num.of_Z 150))]) false true
  = Ok (AnalysisResults.Shown (default_report (VNum (Num.of_Z 150)))) /\
  Num.le (Num.of_Z 150) Num.hundred = false.
Proof. split; reflexivity. Qed.

(* ================================================================== *)
(** ** Worked examples *)

(** Two failures, then a success: three calls, waits of 1 s and 2 s, and
    the envelope of the third response. *)
Example two_failures_then_success :
  let P := Sample.platform [Sample.offline; Sample.unavailable;
                            Sample.ok_response (VStr Sample.text_72)] in
  let call := App.EFetch "u" (App.request "r" "j") in
  App.fetchWithRetry "u" (App.request "r" "j") 3 (App.mkWorld App.initial [])
  = (Ok (Sample.envelope (VStr Sample.text_72)),
     App.mkWorld App.initial
       [call; App.ESleep 1000; call; App.ESleep 2000; call]).
Proof. reflexivity. Qed.

(** Three failures: the error of the third attempt, and no fourth call
    although the transport would have answered it. *)
Example three_failures_no_fourth_call :
  let P := Sample.platform [Sample.offline; Sample.offline; Sample.unavailable;
                            Sample.ok_response (VStr Sample.text_72)] in
  let call := App.EFetch "u" (App.request "r" "j") in
  App.fetchWithRetry "u" (App.request "r" "j") 3 (App.mkWorld App.initial [])
  = (Throw (Error "HTTP error! status: 503"),
     App.mkWorld App.initial
       [call; App.ESleep 1000; call; App.ESleep 2000; call]).
Proof. reflexivity. Qed.

(** A résumé of 10,003 characters is cut to its first 10,000; a job
    description of exactly 5,000 characters is kept whole. *)
Example long_texts_are_cut :
  Str.substring (Sample.filler 10003) 0 10000 = Sample.filler 10000 /\
  Str.substring (Sample.filler 5000) 0 5000 = Sample.filler 5000.
Proof. split; vm_compute; reflexivity. Qed.

(** A file name in capitals is classified like its lower-case form. *)
Example upper_case_docx_is_doc :
  Upload.isDoc (mkFile "CV.DOCX" "" []) = true /\
  Upload.isPdf (mkFile "CV.PDF" "" []) = true.
Proof. split; reflexivity. Qed.

(** The clamp at its edges. *)
Example clamp_edges :
  Num.clamp_0_100 (Num.of_Z (-5)) = Num.zero /\
  Num.clamp_0_100 (Num.of_Z 72) = Num.of_Z 72 /\
  Num.clamp_0_100 (S754_infinity false) = Num.hundred /\
  Num.clamp_0_100 (S754_zero true) = Num.zero.
Proof. repeat split. Qed.

(* ================================================================== *)
(** * Further properties *)

(** ** The retry loop for any number of attempts *)

Section ScheduleFacts.
Context {P : Platform}.

(** The loop stops at the first attempt that succeeds. *)
Lemma retry_loop_first_success (fuel : nat) :
  forall (i retries : nat) (url : string) (options : RequestInit)
         (w : App.World) (j : nat) (r : Response),
    fuel + i = retries ->
    j < fuel ->
    (forall j', j' < j ->
       exists e, attempt_outcome
                   (fetch (App.fetches (App.trace w) + j') url options)
                 = Throw e) ->
    attempt_outcome (fetch (App.fetches (App.trace w) + j) url options) = Ok r ->
    App.retry_loop fuel i retries url options w
    = (json r,
       App.mkWorld (App.state w)
         (App.trace w ++ schedule (App.EFetch url options) i (S j))).
Proof.
  induction fuel as [|fuel IH]; intros i retries url options w j r Hsum Hj Hfail Hok;
    [lia|].
  rewrite retry_loop_step. cbv zeta. destruct j as [|j].
  - rewrite Nat.add_0_r in Hok. rewrite Hok. reflexivity.
  - destruct (Hfail 0) as [e0 He0]; [lia|].
    rewrite Nat.add_0_r in He0. rewrite He0.
    assert (Hlt : (i <? retries - 1)%nat = true) by (apply Nat.ltb_lt; lia).
    rewrite Hlt.
    set (w1 := App.log (App.ESleep (App.wait_ms i))
                 (App.log (App.EFetch url options) w)).
    assert (Hn : App.fetches (App.trace w1) = S (App.fetches (App.trace w))).
    { subst w1. now rewrite fetches_log_sleep, fetches_log_fetch. }
    rewrite (IH (S i) retries url options w1 j r); try lia.
    + subst w1. unfold App.log. cbn [App.state App.trace schedule].
      now rewrite <- !app_assoc.
    + intros j' Hj'. rewrite Hn.
      destruct (Hfail (S j')) as [e He]; [lia|].
      exists e. now rewrite Nat.add_succ_comm.
    + rewrite Hn. now rewrite Nat.add_succ_comm.
Qed.

(** When every attempt fails, the loop throws the error of the last. *)
Lemma retry_loop_all_fail (fuel : nat) :
  forall (i retries : nat) (url : string) (options : RequestInit)
         (w : App.World) (e : Exn),
    fuel + i = retries ->
    1 <= fuel ->
    (forall j', j' < fuel ->
       exists e', attempt_outcome
                    (fetch (App.fetches (App.trace w) + j') url options)
                  = Throw e') ->
    attempt_outcome
      (fetch (App.fetches (App.trace w) + (fuel - 1)) url options) = Throw e ->
    App.retry_loop fuel i retries url options w
    = (Throw e,
       App.mkWorld (App.state w)
         (App.trace w ++ schedule (App.EFetch url options) i fuel)).
Proof.
  induction fuel as [|fuel IH]; intros i retries url options w e Hsum Hpos Hfail Hlast;
    [lia|].
  rewrite retry_loop_step. cbv zeta.
  destruct (Hfail 0) as [e0 He0]; [lia|].
  rewrite Nat.add_0_r in He0. rewrite He0.
  destruct fuel as [|fuel].
  - assert (Hlt : (i <? retries - 1)%nat = false) by (apply Nat.ltb_ge; lia).
    rewrite Hlt. cbn [Nat.sub] in Hlast. rewrite Nat.add_0_r in Hlast.
    rewrite He0 in Hlast. injection Hlast as <-. reflexivity.
  - assert (Hlt : (i <? retries - 1)%nat = true) by (apply Nat.ltb_lt; lia).
    rewrite Hlt.
    set (w1 := App.log (App.ESleep (App.wait_ms i))
                 (App.log (App.EFetch url options) w)).
    assert (Hn : App.fetches (App.trace w1) = S (App.fetches (App.trace w))).
    { subst w1. now rewrite fetches_log_sleep, fetches_log_fetch. }
    rewrite (IH (S i) retries url options w1 e); try lia.
    + subst w1. unfold App.log. cbn [App.state App.trace].
      change (schedule (App.EFetch url options) i (S (S fuel)))
        with (App.EFetch url options
              :: App.ESleep (App.wait_ms i)
              :: schedule (App.EFetch url options) (S i) (S fuel)).
      now rewrite <- !app_assoc.
    + intros j' Hj'. rewrite Hn.
      destruct (Hfail (S j')) as [e' He']; [lia|].
      exists e'. now rewrite Nat.add_succ_comm.
    + rewrite Hn. rewrite Nat.add_succ_comm.
      replace (S (S fuel - 1)) with (S (S fuel) - 1) by lia. exact Hlast.
Qed.

End ScheduleFacts.

(** X1.  For any number of attempts [retries], [fetchWithRetry] stops at
    the first attempt that succeeds, having waited after each failed
    attempt [i] before it what the browser's timer makes of
    [Math.pow(2, i) * 1000]; when all [retries] attempts fail it throws the
    error of the last one and has waited between the attempts only, not
    after the last; with zero attempts it returns [undefined] without a
    call.  The wait after attempt [i] is [2^i] seconds for every index up
    to 21; at index 22 the delay no longer fits the timer's signed 32 bits
    and there is no wait at all. *)
Theorem fetchWithRetry_backoff_schedule :
  forall (P : Platform) (url : string) (options : RequestInit)
         (retries : nat) (w : App.World),
    let n := App.fetches (App.trace w) in
    let call := App.EFetch url options in
    let try k := attempt_outcome (fetch (n + k) url options) in
    let after added := App.mkWorld (App.state w) (App.trace w ++ added) in
    (forall j r,
       j < retries ->
       (forall j', j' < j -> exists e, try j' = Throw e) ->
       try j = Ok r ->
       App.fetchWithRetry url options retries w
       = (json r, after (schedule call 0 (S j)))) /\
    (forall e,
       1 <= retries ->
       (forall j', j' < retries -> exists e', try j' = Throw e') ->
       try (retries - 1) = Throw e ->
       App.fetchWithRetry url options retries w
       = (Throw e, after (schedule call 0 retries))) /\
    App.fetchWithRetry url options 0 w = (Ok VUndefined, w) /\
    (forall i, i <= 21 -> App.wait_ms i = (2 ^ Z.of_nat i * 1000)%Z) /\
    App.wait_ms 22 = 0%Z.
Proof.
  intros P url options retries w n call try after.
  split; [|split; [|split; [|split]]].
  - intros j r Hj Hfail Hok.
    apply retry_loop_first_success; auto.
  - intros e Hpos Hfail Hlast.
    apply retry_loop_all_fail; auto.
  - reflexivity.
  - intros i Hi.
    do 22 (destruct i as [|i]; [vm_compute; reflexivity|]). lia.
  - vm_compute. reflexivity.
Qed.

Lemma fetchWithRetry_backoff_witness :
  App.fetchWithRetry
    (P := Sample.platform [Sample.offline; Sample.offline; Sample.offline;
                           Sample.ok_response (VStr Sample.text_72)])
    "u" (App.request "r" "j") 5 (App.mkWorld App.initial [])
  = (Ok (Sample.envelope (VStr Sample.text_72)),
     App.mkWorld App.initial
       (schedule (App.EFetch "u" (App.request "r" "j")) 0 4)).
Proof.
  apply (fetchWithRetry_backoff_schedule
           (Sample.platform [Sample.offline; Sample.offline; Sample.offline;
                             Sample.ok_response (VStr Sample.text_72)])
           "u" (App.request "r" "j") 5 (App.mkWorld App.initial []))
    with (j := 3) (r := mkResponse 200 (Ok (Sample.envelope (VStr Sample.text_72)))).
  - lia.
  - intros j' Hj'. destruct j' as [|[|[|j']]]; try lia; now eexists.
  - reflexivity.
Defined.

(** X2.  A response with a success status whose body cannot be read as
    JSON ends [fetchWithRetry] at once with the error of the body: the
    rejection of [response.json()] is not caught by the loop, so there is
    no wait and no further attempt, whatever the number of attempts
    allowed. *)
Theorem unreadable_body_is_not_retried :
  forall (P : Platform) (url : string) (options : RequestInit)
         (retries : nat) (w : App.World) (r : Response) (e : Exn),
    1 <= retries ->
    fetch (App.fetches (App.trace w)) url options = Responded r ->
    response_ok r = true ->
    json r = Throw e ->
    App.fetchWithRetry url options retries w
    = (Throw e,
       App.mkWorld (App.state w) (App.trace w ++ [App.EFetch url options])).
Proof.
  intros P url options retries w r e Hpos Hf Hok Hj.
  rewrite <- Hj. unfold App.fetchWithRetry.
  rewrite (retry_loop_first_success (fuel := retries) 0 (retries := retries)
             url options w (j := 0) (r := r)); try lia.
  - reflexivity.
  - rewrite Nat.add_0_r, Hf. cbn [attempt_outcome]. now rewrite Hok.
Qed.

Lemma unreadable_body_witness :
  App.fetchWithRetry
    (P := Sample.platform
            [Responded (mkResponse 200 (Throw (mkExn "SyntaxError" "Unexpected end of JSON input")));
             Sample.ok_response (VStr Sample.text_72)])
    "u" (App.request "r" "j") 3 (App.mkWorld App.initial [])
  = (Throw (mkExn "SyntaxError" "Unexpected end of JSON input"),
     App.mkWorld App.initial [App.EFetch "u" (App.request "r" "j")]).
Proof.
  apply (unreadable_body_is_not_retried
           (Sample.platform
              [Responded (mkResponse 200 (Throw (mkExn "SyntaxError" "Unexpected end of JSON input")));
               Sample.ok_response (VStr Sample.text_72)])
           "u" (App.request "r" "j") (retries := 3) (App.mkWorld App.initial [])
           (r := mkResponse 200 (Throw (mkExn "SyntaxError" "Unexpected end of JSON input")))).
  - lia.
  - reflexivity.
  - reflexivity.
  - reflexivity.
Defined.

(** ** Outcomes of the analysis *)

Section OutcomeFacts.
Context {P : Platform}.

(** The [try] block either stores a parsed value that has a numeric
    [matchPercentage], or throws and leaves the React state alone. *)
Lemma analyze_try_outcome (resume job : string) (w : App.World) :
  match App.analyze_try resume job w with
  | (Ok _, w2) =>
      exists parsed,
        App.state w2 = App.setAnalysis parsed (App.state w) /\
        Js.typeof (Js.get parsed "matchPercentage") = "number"
  | (Throw _, w2) => App.state w2 = App.state w
  end.
Proof.
  destruct VITE_GEMINI_API_KEY as [key|] eqn:Hk.
  - destruct key as [|c key'] eqn:Ek.
    + unfold App.analyze_try. rewrite Hk. reflexivity.
    + rewrite (analyze_try_run resume job w Hk) by discriminate.
      destruct (retry_loop_frame 3 0 3 (App.apiUrl (String c key'))
                  (App.request resume job) w) as (Hs & _).
      unfold exec in Hs.
      change (App.retry_loop 3 0 3) with
        (fun u o => App.fetchWithRetry u o App.default_retries) in Hs.
      cbv beta in Hs.
      destruct (App.fetchWithRetry _ _ _ w) as [[envelope|e] w2];
        cbn [snd] in Hs; [|exact Hs].
      destruct (App.extractJSON envelope) as [parsed|e]; [|exact Hs].
      destruct (String.eqb _ "number") eqn:E; [|exact Hs].
      exists parsed. cbn [App.upd App.state]. rewrite Hs.
      split; [reflexivity | now apply String.eqb_eq].
  - unfold App.analyze_try. rewrite Hk. reflexivity.
Qed.

(** The state [analyzeResume] leaves, for texts that are not empty. *)
Lemma analyzeResume_state (w : App.World) :
  App.resumeText (App.state w) <> "" ->
  App.jobDescription (App.state w) <> "" ->
  let s := App.state w in
  (exists parsed,
     Js.typeof (Js.get parsed "matchPercentage") = "number" /\
     App.state (exec App.analyzeResume w)
     = App.mkState (App.resumeText s) (App.jobDescription s) parsed false ""
         (App.resumeText s)) \/
  (exists e,
     App.state (exec App.analyzeResume w)
     = App.mkState (App.resumeText s) (App.jobDescription s) VNull false
         (App.analysis_failed e) (App.resumeText s)).
Proof.
  intros Hr Hj s. unfold exec. rewrite (analyzeResume_run w Hr Hj). cbn [snd].
  pose proof (analyze_try_outcome (App.resumeText (App.state w))
                (App.jobDescription (App.state w)) (started w)) as H.
  destruct (App.analyze_try _ _ (started w)) as [[[]|e] w2].
  - destruct H as (parsed & Hs & Hn). left. exists parsed. split; [exact Hn|].
    cbn [App.upd App.state]. rewrite Hs. reflexivity.
  - right. exists e. cbn [App.upd App.state]. rewrite H. reflexivity.
Qed.

(** A call in the trace after [analyzeResume] was there before or carries
    the request built from the two texts. *)
Lemma analyzeResume_calls (w : App.World) (url : string) (options : RequestInit) :
  App.resumeText (App.state w) <> "" ->
  App.jobDescription (App.state w) <> "" ->
  In (App.EFetch url options) (App.trace (exec App.analyzeResume w)) ->
  In (App.EFetch url options) (App.trace w) \/
  options = App.request (App.resumeText (App.state w))
                        (App.jobDescription (App.state w)).
Proof.
  intros Hr Hj Hin. unfold exec in Hin.
  rewrite (analyzeResume_run w Hr Hj) in Hin. cbn [snd] in Hin.
  destruct (analyze_try_calls (App.resumeText (App.state w))
              (App.jobDescription (App.state w)) (started w))
    as (added & Ht & Hall).
  assert (Htr : App.trace
                  (App.upd (App.setLoading false)
                     (match App.analyze_try (App.resumeText (App.state w))
                              (App.jobDescription (App.state w)) (started w) with
                      | (Ok _, w2) => w2
                      | (Throw e, w2) =>
                          App.upd (App.setApiError (App.analysis_failed e)) w2
                      end))
                = (App.trace w ++ added)%list).
  { destruct (App.analyze_try _ _ (started w)) as [[[]|e] w2]; exact Ht. }
  rewrite Htr in Hin. apply in_app_or in Hin. destruct Hin as [Hin|Hin].
  - now left.
  - right. rewrite Forall_forall in Hall. exact (Hall _ Hin url options eq_refl).
Qed.

End OutcomeFacts.

(** X3.  [analyzeResume] never throws.  Run on texts that are not empty,
    it leaves the two texts as they were, copies the résumé text to
    [originalResumeText], switches the loading flag off, and ends in one of
    two states: a stored analysis with a numeric [matchPercentage] and an
    empty error message, or a [null] analysis and an error message that
    starts with "Analysis failed: ".  A result and an error are never
    shown together. *)
Theorem analyzeResume_result_or_error :
  forall (P : Platform) (w : App.World),
    App.resumeText (App.state w) <> "" ->
    App.jobDescription (App.state w) <> "" ->
    let after := App.state (exec App.analyzeResume w) in
    fst (App.analyzeResume w) = Ok tt /\
    App.resumeText after = App.resumeText (App.state w) /\
    App.jobDescription after = App.jobDescription (App.state w) /\
    App.originalResumeText after = App.resumeText (App.state w) /\
    App.loading after = false /\
    ((Js.typeof (Js.get (App.analysis after) "matchPercentage") = "number" /\
      App.apiError after = "") \/
     (App.analysis after = VNull /\
      exists e, App.apiError after
                = "Analysis failed: " ++ message e
                  ++ ". Please try again with different content.")).
Proof.
  intros P w Hr Hj after. split.
  { rewrite (analyzeResume_run w Hr Hj). reflexivity. }
  subst after.
  destruct (analyzeResume_state w Hr Hj) as [(parsed & Hn & ->)|(e & ->)];
    cbn [App.resumeText App.jobDescription App.originalResumeText App.loading
         App.analysis App.apiError];
    repeat split.
  - left. split; [exact Hn | reflexivity].
  - right. split; [reflexivity | now exists e].
Qed.

Lemma analyzeResume_result_or_error_witness :
  App.loading
    (App.state (exec (App.analyzeResume (P := Sample.platform [])) Sample.app0))
  = false.
Proof.
  apply (analyzeResume_result_or_error (Sample.platform []) Sample.app0);
    discriminate.
Defined.

(** X4.  Without an API key (the variable is undefined or empty)
    [analyzeResume] reports the missing key and makes no network call and
    no wait: the trace is as before. *)
Theorem missing_key_makes_no_call :
  forall (P : Platform) (w : App.World),
    App.resumeText (App.state w) <> "" ->
    App.jobDescription (App.state w) <> "" ->
    VITE_GEMINI_API_KEY = None \/ VITE_GEMINI_API_KEY = Some "" ->
    exec App.analyzeResume w
    = App.mkWorld
        (App.mkState (App.resumeText (App.state w))
           (App.jobDescription (App.state w)) VNull false
           "Analysis failed: Gemini API key is missing. Set VITE_GEMINI_API_KEY in your .env.local file.. Please try again with different content."
           (App.resumeText (App.state w)))
        (App.trace w).
Proof.
  intros P w Hr Hj Hk. unfold exec. rewrite (analyzeResume_run w Hr Hj).
  unfold App.analyze_try. destruct Hk as [-> | ->]; reflexivity.
Qed.

Lemma missing_key_witness :
  App.trace
    (exec (App.analyzeResume
             (P := {| JSON_parse := Sample.parse;
                      StringToNumber := fun _ => Num.NaN;
                      NumberToString := fun _ => "NaN";
                      readAsText := fun _ => None;
                      readAsArrayBuffer := fun _ => None;
                      file_arrayBuffer := fun f => Ok (file_data f);
                      getDocument := fun _ => Throw (Error "no pdf");
                      fetch := fun _ _ _ => Sample.ok_response (VStr Sample.text_72);
                      VITE_GEMINI_API_KEY := None |}))
          Sample.app0)
  = [].
Proof.
  match goal with
  | |- App.trace (exec (App.analyzeResume (P := ?Q)) _) = _ =>
      rewrite (missing_key_makes_no_call Q Sample.app0)
  end.
  - reflexivity.
  - discriminate.
  - discriminate.
  - left. reflexivity.
Defined.

(** X5.  When all three attempts fail, [analyzeResume] has made exactly
    three calls with waits of 1 s and 2 s between them, stores no analysis
    and shows the message of the third attempt's error inside
    "Analysis failed: ... Please try again with different content.". *)
Theorem transport_failure_is_reported :
  forall (P : Platform) (w : App.World) (key : string) (e : Exn),
    let resume := App.resumeText (App.state w) in
    let job := App.jobDescription (App.state w) in
    let call := App.EFetch (App.apiUrl key) (App.request resume job) in
    let try k :=
      attempt_outcome
        (fetch (App.fetches (App.trace w) + k) (App.apiUrl key)
               (App.request resume job)) in
    resume <> "" -> job <> "" ->
    VITE_GEMINI_API_KEY = Some key -> key <> "" ->
    (forall k, k < 3 -> exists e', try k = Throw e') ->
    try 2 = Throw e ->
    exec App.analyzeResume w
    = App.mkWorld
        (App.mkState resume job VNull false
           ("Analysis failed: " ++ message e
            ++ ". Please try again with different content.") resume)
        (App.trace w ++ [call; App.ESleep 1000; call; App.ESleep 2000; call]).
Proof.
  intros P w key e resume job call try Hr Hj Hk Hne Hfail Hlast.
  unfold exec. rewrite (analyzeResume_run w Hr Hj).
  rewrite (analyze_try_run _ _ _ Hk Hne).
  unfold App.fetchWithRetry, App.default_retries.
  rewrite (retry_loop_all_fail (fuel := 3) 0 (retries := 3) (App.apiUrl key)
             (App.request (App.resumeText (App.state w))
                          (App.jobDescription (App.state w)))
             (started w) (e := e)); try lia; try assumption.
  reflexivity.
Qed.

Lemma transport_failure_witness :
  App.apiError
    (App.state
       (exec (App.analyzeResume
                (P := Sample.platform [Sample.offline; Sample.offline;
                                       Sample.unavailable]))
             Sample.app0))
  = "Analysis failed: HTTP error! status: 503. Please try again with different content.".
Proof.
  rewrite (transport_failure_is_reported
             (Sample.platform [Sample.offline; Sample.offline; Sample.unavailable])
             Sample.app0 (key := "key")
             (e := Error "HTTP error! status: 503")).
  - reflexivity.
  - discriminate.
  - discriminate.
  - reflexivity.
  - discriminate.
  - intros k Hk. destruct k as [|[|[|k]]]; try lia; now eexists.
  - reflexivity.
Defined.

(** X6.  When the text blob of the response is not valid JSON, no analysis
    is stored and the error message carries the parser's message under
    both prefixes: "Analysis failed: Failed to process analysis: ...". *)
Theorem malformed_json_is_reported :
  forall (P : Platform) (w w2 : App.World) (key txt : string)
         (envelope : JValue) (e : Exn),
    App.resumeText (App.state w) <> "" ->
    App.jobDescription (App.state w) <> "" ->
    VITE_GEMINI_API_KEY = Some key -> key <> "" ->
    App.fetchWithRetry (App.apiUrl key)
      (App.request (App.resumeText (App.state w))
                   (App.jobDescription (App.state w)))
      App.default_retries (started w) = (Ok envelope, w2) ->
    nested_text envelope = VStr txt -> txt <> "" ->
    JSON_parse txt = Throw e ->
    App.analysis (App.state (exec App.analyzeResume w)) = VNull /\
    App.apiError (App.state (exec App.analyzeResume w))
    = "Analysis failed: Failed to process analysis: " ++ message e
      ++ ". Please try again with different content.".
Proof.
  intros P w w2 key txt envelope e Hr Hj Hk Hne Hf Ht Htne Hp.
  rewrite (analyzeResume_after_fetch w Hr Hj Hk Hne Hf).
  rewrite (extractJSON_text envelope Ht Htne), Hp.
  cbv zeta. cbn [App.analysis App.apiError]. split; [reflexivity|].
  unfold App.analysis_failed. cbn [message Error].
  now rewrite !app_assoc_s.
Qed.

Lemma malformed_json_witness :
  App.analysis
    (App.state
       (exec (App.analyzeResume
                (P := Sample.platform [Sample.ok_response (VStr "{oops")]))
             Sample.app0))
  = VNull.
Proof.
  eapply (malformed_json_is_reported
            (Sample.platform [Sample.ok_response (VStr "{oops")])
            Sample.app0 (key := "key") (txt := "{oops")).
  - discriminate.
  - discriminate.
  - reflexivity.
  - discriminate.
  - reflexivity.
  - reflexivity.
  - discriminate.
  - reflexivity.
Defined.

(** X7.  Running [analyzeResume] twice on the same texts sends the same
    request every time: each call added to the trace by the two runs
    carries the request built from the résumé text and job description of
    the start, whatever the first run returned. *)
Theorem repeated_analysis_sends_same_request :
  forall (P : Platform) (w : App.World) (url : string) (options : RequestInit),
    App.resumeText (App.state w) <> "" ->
    App.jobDescription (App.state w) <> "" ->
    In (App.EFetch url options)
       (App.trace (exec App.analyzeResume (exec App.analyzeResume w))) ->
    In (App.EFetch url options) (App.trace w) \/
    options = App.request (App.resumeText (App.state w))
                          (App.jobDescription (App.state w)).
Proof.
  intros P w url options Hr Hj Hin.
  assert (Hsame : App.resumeText (App.state (exec App.analyzeResume w))
                  = App.resumeText (App.state w) /\
                  App.jobDescription (App.state (exec App.analyzeResume w))
                  = App.jobDescription (App.state w)).
  { destruct (analyzeResume_state w Hr Hj) as [(parsed & _ & ->)|(e & ->)];
      split; reflexivity. }
  destruct Hsame as [Hr' Hj'].
  apply analyzeResume_calls in Hin; [| now rewrite Hr' | now rewrite Hj'].
  rewrite Hr', Hj' in Hin. destruct Hin as [Hin|Hin]; [|now right].
  now apply analyzeResume_calls in Hin.
Qed.

Lemma repeated_analysis_witness :
  In (App.EFetch (App.apiUrl "key") (App.request "my resume" "the job"))
     (App.trace Sample.app0) \/
  App.request "my resume" "the job" = App.request "my resume" "the job".
Proof.
  apply (repeated_analysis_sends_same_request
           (Sample.platform [Sample.offline]) Sample.app0
           (App.apiUrl "key") (App.request "my resume" "the job")).
  - discriminate.
  - discriminate.
  - vm_compute. left. reflexivity.
Defined.

(** X8.  Whatever the envelope, [extractJSON] either returns an array or
    an object, or throws an [Error] whose message starts with
    "Failed to process analysis: ".  It reads the first candidate only:
    further candidates and further properties of the envelope do not
    change its result. *)
Theorem extractJSON_object_or_prefixed_error :
  forall (P : Platform) (envelope : JValue),
    match App.extractJSON envelope with
    | Ok v => (exists elems, v = VArr elems) \/ (exists props, v = VObj props)
    | Throw e =>
        exn_name e = "Error" /\
        exists reason, message e = "Failed to process analysis: " ++ reason
    end /\
    (forall candidate more others,
       App.extractJSON
         (VObj (("candidates", VArr (candidate :: more)) :: others))
       = App.extractJSON (VObj [("candidates", VArr [candidate])])).
Proof.
  intros P envelope. split.
  - unfold App.extractJSON.
    destruct (App.extractJSON_try envelope) as [v|e] eqn:E.
    + unfold App.extractJSON_try in E.
      destruct (Js.get_strict envelope "candidates") as [c|e]; [|discriminate E].
      destruct (Js.truthy _); [|discriminate E].
      destruct (Conv.ToString _) as [text|e]; [|discriminate E].
      destruct (JSON_parse text) as [parsed|e]; [|discriminate E].
      destruct parsed; cbn in E; rewrite ?andb_false_r in E;
        try discriminate E; injection E as <-;
        [left | right]; now eexists.
    + split; [reflexivity | now eexists].
  - intros candidate more others. reflexivity.
Qed.

(* ================================================================== *)
(** ** Uploads *)

Section UploadFacts.
Context {P : Platform}.

(** A page that cannot be read makes the page loop of [readPdfFile] fail. *)
Lemma upload_read_pages_fails (pdf : PdfDocument) (k : nat) (e : Exn) :
  (getPage pdf k = Throw e \/
   exists page, getPage pdf k = Ok page /\ getTextContent page = Throw e) ->
  forall fuel start acc,
    start <= k -> k < start + fuel ->
    exists e', Upload.read_pages pdf fuel start acc = Throw e'.
Proof.
  intros Hk fuel. induction fuel as [|fuel IH]; intros start acc Hlo Hhi; [lia|].
  cbn [Upload.read_pages].
  destruct (getPage pdf start) as [page|e1] eqn:Hg; [|now eexists].
  destruct (getTextContent page) as [content|e2] eqn:Hc; [|now eexists].
  destruct (Nat.eq_dec start k) as [->|Hne].
  - destruct Hk as [Hk|(page' & Hk & Hk')]; rewrite Hk in Hg;
      [discriminate Hg|].
    injection Hg as ->. rewrite Hk' in Hc. discriminate Hc.
  - apply IH; lia.
Qed.

Lemma drop_read_pages_fails (pdf : PdfDocument) (k : nat) (e : Exn) :
  (getPage pdf k = Throw e \/
   exists page, getPage pdf k = Ok page /\ getTextContent page = Throw e) ->
  forall fuel start acc,
    start <= k -> k < start + fuel ->
    exists e', DropUpload.read_pages pdf fuel start acc = Throw e'.
Proof.
  intros Hk fuel. induction fuel as [|fuel IH]; intros start acc Hlo Hhi; [lia|].
  cbn [DropUpload.read_pages].
  destruct (getPage pdf start) as [page|e1] eqn:Hg; [|now eexists].
  destruct (getTextContent page) as [content|e2] eqn:Hc; [|now eexists].
  destruct (Nat.eq_dec start k) as [->|Hne].
  - destruct Hk as [Hk|(page' & Hk & Hk')]; rewrite Hk in Hg;
      [discriminate Hg|].
    injection Hg as ->. rewrite Hk' in Hc. discriminate Hc.
  - apply IH; lia.
Qed.

(** [trim] leaves no white space at either end. *)
Lemma trimEnd_no_trailing_space (s : string) :
  ends_with_space (Str.trimEnd s) = false.
Proof.
  unfold ends_with_space. induction s as [|c s IH]; [reflexivity|].
  cbn [Str.trimEnd]. destruct (Str.trimEnd s) as [|c' r] eqn:E.
  - destruct (Str.is_space c) eqn:Hc; [reflexivity|]. cbn. exact Hc.
  - exact IH.
Qed.

Lemma trimStart_no_leading_space (s : string) :
  starts_with_space (Str.trimStart s) = false.
Proof.
  induction s as [|c s IH]; [reflexivity|].
  cbn [Str.trimStart]. destruct (Str.is_space c) eqn:Hc; [exact IH|].
  cbn. exact Hc.
Qed.

Lemma trimStart_keeps_end (s : string) :
  ends_with_space s = false -> ends_with_space (Str.trimStart s) = false.
Proof.
  unfold ends_with_space. induction s as [|c s IH]; intros H; [reflexivity|].
  cbn [Str.trimStart]. destruct (Str.is_space c) eqn:Hc; [|exact H].
  destruct s as [|c' r]; [cbn in H; congruence|].
  apply IH. exact H.
Qed.

Lemma trim_no_outer_space (s : string) :
  starts_with_space (Str.trim s) = false /\
  ends_with_space (Str.trim s) = false.
Proof.
  unfold Str.trim. split.
  - apply trimStart_no_leading_space.
  - apply trimStart_keeps_end, trimEnd_no_trailing_space.
Qed.

End UploadFacts.

(** X9.  Given a file, [handleFileUpload] calls [onTextExtracted] exactly
    once, ends with [isUploading] off and the file input reset, and shows
    an error exactly when the extraction threw: then the text passed on is
    empty, otherwise it is the extracted text.  Without a file it changes
    nothing. *)
Theorem handleFileUpload_signals_exactly_once :
  forall (P : Platform) (file : File) (w : Upload.World),
    let w' := exec (Upload.handleFileUpload (Some file)) w in
    Upload.isUploading (Upload.state w') = false /\
    Upload.input_reset w' = true /\
    Upload.signals w' = (Upload.signals w ++ [Upload.text w'])%list /\
    match Upload.extract file with
    | Ok t => Upload.text w' = t /\ Upload.error (Upload.state w') = None
    | Throw e =>
        Upload.text w' = "" /\ Upload.error (Upload.state w') = Some (message e)
    end /\
    exec (Upload.handleFileUpload None) w = w.
Proof.
  intros P file w w'. subst w'.
  destruct (Upload.extract file) as [t|e] eqn:E.
  - rewrite (handleFileUpload_ok file w E). repeat split.
  - rewrite (handleFileUpload_throw file w E). repeat split.
Qed.

(** X10.  The PDF reader gets every file whose declared type is
    [application/pdf], whatever its name, and every file whose name ends in
    [.pdf] in any mix of upper and lower case, whatever its declared type,
    [text/plain] included.  A name ending in [.txt] in any case sends a
    file that is not declared a PDF to the text reader. *)
Theorem classification_by_type_or_extension :
  forall (P : Platform) (file : File) (stem ext : string),
    file_name file = stem ++ ext ->
    (file_type file = "application/pdf" \/ Str.toLowerCase ext = ".pdf" ->
     Upload.extract file = Upload.readPdfFile file) /\
    (Str.toLowerCase ext = ".txt" ->
     file_type file <> "application/pdf" ->
     Upload.extract file
     = match readAsText file with
       | Some t => Ok t
       | None => Throw (Error "Failed to read text file.")
       end).
Proof.
  intros P file stem ext Hname. split.
  - intros H. unfold Upload.extract, Upload.isPdf.
    destruct H as [-> | Hext].
    + reflexivity.
    + rewrite Hname, toLowerCase_app, Hext, endsWith_app.
      now rewrite orb_true_r.
  - intros Hext Hty. unfold Upload.extract, Upload.isPdf, Upload.isTxt.
    rewrite Hname, toLowerCase_app, Hext, endsWith_app.
    rewrite (endsWith_behind (Str.toLowerCase stem) ".txt" ".pdf")
      by (simpl; lia).
    apply String.eqb_neq in Hty. rewrite Hty.
    cbn [orb]. change (Str.endsWith ".txt" ".pdf") with false. cbn [orb].
    now rewrite orb_true_r.
Qed.

Lemma classification_witness :
  Upload.extract (P := Sample.platform [])
    (mkFile "Resume.PDF" "text/plain" Sample.pdf_bytes)
  = Upload.readPdfFile (P := Sample.platform [])
      (mkFile "Resume.PDF" "text/plain" Sample.pdf_bytes).
Proof.
  apply (classification_by_type_or_extension (Sample.platform [])
           (mkFile "Resume.PDF" "text/plain" Sample.pdf_bytes) "Resume" ".PDF").
  - reflexivity.
  - right. reflexivity.
Defined.

(** X11.  A PDF one of whose pages cannot be fetched or read yields no
    text at all: the pages read before it are discarded.  App.jsx shows its
    fixed PDF message and the drag-and-drop component its own, whatever the
    error of the page was, the caller gets the empty string, and the
    drag-and-drop component forgets the file name. *)
Theorem unreadable_page_discards_all_text :
  forall (P : Platform) (file : File) (data : list Byte.byte)
         (pdf : PdfDocument) (k : nat) (e : Exn)
         (w : Upload.World) (d : DropUpload.World),
    Upload.isPdf file = true ->
    readAsArrayBuffer file = Some data ->
    file_arrayBuffer file = Ok data ->
    getDocument data = Ok pdf ->
    1 <= k <= numPages pdf ->
    (getPage pdf k = Throw e \/
     exists page, getPage pdf k = Ok page /\ getTextContent page = Throw e) ->
    (Upload.text (exec (Upload.handleFileUpload (Some file)) w) = "" /\
     Upload.error (Upload.state (exec (Upload.handleFileUpload (Some file)) w))
     = Some "Failed to read PDF file. Try another file or paste the text manually.") /\
    (DropUpload.text (exec (DropUpload.onDrop [file]) d) = "" /\
     DropUpload.error (DropUpload.state (exec (DropUpload.onDrop [file]) d))
     = Some "Failed to parse PDF. Please try a different file or check that it is not password-protected." /\
     DropUpload.fileName (DropUpload.state (exec (DropUpload.onDrop [file]) d))
     = "").
Proof.
  intros P file data pdf k e w d Hpdf Hr Hb Hd Hk Hfail. split.
  - destruct (@upload_read_pages_fails pdf k e Hfail (numPages pdf) 1 "")
      as [e' He']; [lia | lia |].
    assert (E : Upload.extract file = Throw (Error Upload.pdf_failed)).
    { unfold Upload.extract, Upload.readPdfFile, Upload.parse_pdf.
      now rewrite Hpdf, Hr, Hd, He'. }
    rewrite (handleFileUpload_throw file w E). split; reflexivity.
  - destruct (@drop_read_pages_fails pdf k e Hfail (numPages pdf) 1 "")
      as [e' He']; [lia | lia |].
    assert (E : DropUpload.parse file = Throw e').
    { unfold DropUpload.parse. now rewrite Hb, Hd, He'. }
    unfold DropUpload.onDrop.
    change (DropUpload.isPdfType file) with (Upload.isPdf file).
    rewrite Hpdf. cbn [negb].
    rewrite (extractText_throw file d E). repeat split.
Qed.

(** X12.  The text extracted from a PDF never starts or ends with white
    space, in App.jsx and in the drag-and-drop component alike. *)
Theorem pdf_text_has_no_outer_white_space :
  forall (P : Platform) (file : File) (t : string),
    Upload.readPdfFile file = Ok t \/ DropUpload.parse file = Ok t ->
    starts_with_space t = false /\ ends_with_space t = false.
Proof.
  intros P file t [H|H].
  - unfold Upload.readPdfFile, Upload.parse_pdf in H.
    destruct (readAsArrayBuffer file) as [data|]; [|discriminate H].
    destruct (getDocument data) as [pdf|e]; [|discriminate H].
    destruct (Upload.read_pages pdf (numPages pdf) 1 "") as [full|e];
      [|discriminate H].
    injection H as <-. apply trim_no_outer_space.
  - unfold DropUpload.parse in H.
    destruct (file_arrayBuffer file) as [data|e]; [|discriminate H].
    destruct (getDocument data) as [pdf|e]; [|discriminate H].
    destruct (DropUpload.read_pages pdf (numPages pdf) 1 "") as [full|e];
      [|discriminate H].
    injection H as <-. apply trim_no_outer_space.
Qed.

Lemma pdf_text_outer_space_witness :
  starts_with_space ("Jane Doe" ++ blank_line ++ "Skills: Rocq") = false /\
  ends_with_space ("Jane Doe" ++ blank_line ++ "Skills: Rocq") = false.
Proof.
  apply (pdf_text_has_no_outer_white_space (Sample.platform []) Sample.pdf_file).
  left. reflexivity.
Defined.

Lemma unreadable_page_witness :
  Upload.text
    (exec (Upload.handleFileUpload (P := Sample.pdf_platform Sample.torn_pdf)
             (Some Sample.pdf_file)) Sample.upload0) = "" /\
  Upload.error
    (Upload.state
       (exec (Upload.handleFileUpload (P := Sample.pdf_platform Sample.torn_pdf)
                (Some Sample.pdf_file)) Sample.upload0))
  = Some "Failed to read PDF file. Try another file or paste the text manually.".
Proof.
  apply (unreadable_page_discards_all_text
           (Sample.pdf_platform Sample.torn_pdf) Sample.pdf_file
           (data := Sample.pdf_bytes) (pdf := Sample.torn_pdf) (k := 2)
           (e := Error "Page content is damaged.")
           Sample.upload0 Sample.drop0).
  - reflexivity.
  - reflexivity.
  - reflexivity.
  - reflexivity.
  - simpl. lia.
  - right. now eexists.
Defined.

(** X13.  A PDF without pages is not an error: both components pass the
    empty string to the caller and show no error message, so that for the
    caller the upload looks like a cleared one; the drag-and-drop component
    keeps the file name and shows no success banner. *)
Theorem pdf_without_pages_gives_empty_text :
  forall (P : Platform) (file : File) (data : list Byte.byte)
         (pdf : PdfDocument) (w : Upload.World) (d : DropUpload.World),
    Upload.isPdf file = true ->
    readAsArrayBuffer file = Some data ->
    file_arrayBuffer file = Ok data ->
    getDocument data = Ok pdf ->
    numPages pdf = 0 ->
    (Upload.text (exec (Upload.handleFileUpload (Some file)) w) = "" /\
     Upload.error (Upload.state (exec (Upload.handleFileUpload (Some file)) w))
     = None) /\
    (exec (DropUpload.onDrop [file]) d
     = DropUpload.mkWorld (DropUpload.mkState None (file_name file) false) ""
         (DropUpload.signals d ++ [""]) /\
     DropUpload.success_banner (exec (DropUpload.onDrop [file]) d) = false).
Proof.
  intros P file data pdf w d Hpdf Hr Hb Hd Hn.
  assert (E1 : Upload.extract file = Ok "").
  { unfold Upload.extract, Upload.readPdfFile, Upload.parse_pdf.
    now rewrite Hpdf, Hr, Hd, Hn. }
  assert (E2 : DropUpload.parse file = Ok "").
  { unfold DropUpload.parse. now rewrite Hb, Hd, Hn. }
  split.
  - rewrite (handleFileUpload_ok file w E1). split; reflexivity.
  - unfold DropUpload.onDrop.
    change (DropUpload.isPdfType file) with (Upload.isPdf file).
    rewrite Hpdf. cbn [negb].
    rewrite (extractText_ok file d E2). split; reflexivity.
Qed.

Lemma pdf_without_pages_witness :
  Upload.text
    (exec (Upload.handleFileUpload (P := Sample.pdf_platform Sample.empty_pdf)
             (Some Sample.pdf_file)) Sample.upload0) = "" /\
  Upload.error
    (Upload.state
       (exec (Upload.handleFileUpload (P := Sample.pdf_platform Sample.empty_pdf)
                (Some Sample.pdf_file)) Sample.upload0))
  = None.
Proof.
  apply (pdf_without_pages_gives_empty_text
           (Sample.pdf_platform Sample.empty_pdf) Sample.pdf_file
           (data := Sample.pdf_bytes) (pdf := Sample.empty_pdf)
           Sample.upload0 Sample.drop0); reflexivity.
Defined.

(** X14.  After a drop, the drag-and-drop component shows its success
    banner exactly when the file was taken for a PDF and its extraction
    gave a text that is not empty.  In every other case (no file, a file
    that is not a PDF, a failed parse, an empty text) the banner is
    hidden. *)
Theorem banner_after_drop :
  forall (P : Platform) (files : list File) (d : DropUpload.World),
    DropUpload.success_banner (exec (DropUpload.onDrop files) d) = true <->
    exists file others t,
      files = file :: others /\
      DropUpload.isPdfType file = true /\
      DropUpload.parse file = Ok t /\ t <> "".
Proof.
  intros P files d. split.
  - destruct files as [|file others].
    { unfold DropUpload.success_banner. cbn. rewrite andb_false_r.
      discriminate. }
    unfold DropUpload.onDrop.
    destruct (DropUpload.isPdfType file) eqn:Hp; cbn [negb].
    + destruct (DropUpload.parse file) as [t|e] eqn:E.
      * rewrite (extractText_ok file d E).
        unfold DropUpload.success_banner.
        cbn [DropUpload.text DropUpload.error DropUpload.state].
        intros H. exists file, others, t.
        split; [reflexivity|]. split; [exact Hp|]. split; [exact E|].
        destruct t; [discriminate H | discriminate].
      * rewrite (extractText_throw file d E). discriminate.
    + unfold DropUpload.success_banner. cbn. rewrite andb_false_r.
      discriminate.
  - intros (file & others & t & -> & Hp & E & Hne).
    unfold DropUpload.onDrop. rewrite Hp. cbn [negb].
    rewrite (extractText_ok file d E).
    unfold DropUpload.success_banner.
    cbn [DropUpload.text DropUpload.error DropUpload.state].
    destruct t; [congruence | reflexivity].
Qed.

Lemma banner_after_drop_witness :
  DropUpload.success_banner
    (exec (DropUpload.onDrop (P := Sample.platform []) [Sample.pdf_file])
          Sample.drop0) = true.
Proof.
  apply (proj2 (banner_after_drop (Sample.platform []) [Sample.pdf_file]
                  Sample.drop0)).
  exists Sample.pdf_file, [], ("Jane Doe" ++ Str.LF ++ "Skills: Rocq").
  repeat split. discriminate.
Defined.

(** X15.  For the first rejected file, the drag-and-drop component shows
    the too-large message as soon as one of its errors has the code
    [file-too-large], other codes notwithstanding, and the general
    rejection message otherwise, also when the rejection carries no error
    list; further rejected files are not looked at. *)
Theorem too_large_takes_precedence :
  forall (rejection : DropUpload.FileRejection)
         (others : list DropUpload.FileRejection) (d : DropUpload.World),
    let shown :=
      DropUpload.error
        (DropUpload.state
           (exec (DropUpload.onDropRejected (rejection :: others)) d)) in
    ((exists es e, DropUpload.errors rejection = Some es /\ In e es /\
                   DropUpload.code e = "file-too-large") ->
     shown = Some "File is too large. Maximum allowed size is 5MB.") /\
    ((forall es e, DropUpload.errors rejection = Some es -> In e es ->
                   DropUpload.code e <> "file-too-large") ->
     shown = Some "File was rejected. Please ensure it is a PDF under 5MB.").
Proof.
  intros rejection others d shown. subst shown.
  unfold exec, DropUpload.onDropRejected. split.
  - intros (es & e & Hes & Hin & Hc). rewrite Hes.
    assert (H : existsb (fun e0 => String.eqb (DropUpload.code e0) "file-too-large") es
                = true).
    { apply existsb_exists. exists e. split; [exact Hin|].
      now apply String.eqb_eq. }
    rewrite H. reflexivity.
  - intros Hno. destruct (DropUpload.errors rejection) as [es|]; [|reflexivity].
    assert (H : existsb (fun e0 => String.eqb (DropUpload.code e0) "file-too-large") es
                = false).
    { destruct (existsb _ es) eqn:E; [|reflexivity].
      apply existsb_exists in E. destruct E as (e & Hin & Hc).
      apply String.eqb_eq in Hc. now destruct (Hno es e eq_refl Hin). }
    rewrite H. reflexivity.
Qed.

Lemma too_large_witness :
  DropUpload.error
    (DropUpload.state
       (exec (DropUpload.onDropRejected
                [DropUpload.mkRejection Sample.txt_file
                   (Some [DropUpload.mkFileError "file-invalid-type" "not a PDF";
                          DropUpload.mkFileError "file-too-large" "over 5 MB"])])
             Sample.drop0))
  = Some "File is too large. Maximum allowed size is 5MB.".
Proof.
  apply (too_large_takes_precedence
           (DropUpload.mkRejection Sample.txt_file
              (Some [DropUpload.mkFileError "file-invalid-type" "not a PDF";
                     DropUpload.mkFileError "file-too-large" "over 5 MB"]))
           [] Sample.drop0).
  exists [DropUpload.mkFileError "file-invalid-type" "not a PDF";
          DropUpload.mkFileError "file-too-large" "over 5 MB"],
         (DropUpload.mkFileError "file-too-large" "over 5 MB").
  repeat split. right. left. reflexivity.
Defined.

(* ================================================================== *)
(** ** Score display *)


(** X16.  How both clamping components treat a numeric score that is not
    NaN: below 0 it is shown as 0, above 100 as 100, and from 0 to 100 it
    is shown as it is (negative zero as zero).  This holds for the row
    [name] of [getSafeScore] and for the ATS badge. *)
Theorem numeric_scores_are_clamped_not_changed :
  forall (P : Platform) (props : list (string * JValue)) (name : string)
         (n : Num.number),
    Js.lookup name props = VNum n ->
    Num.isNaN n = false ->
    let row := ScoreBreakdown.getSafeScore (VObj props) name in
    let badge := ATSCompatibility.normalizedScore (VNum n) in
    (Num.lt n Num.zero = true -> row = Ok Num.zero /\ badge = Some Num.zero) /\
    (Num.lt Num.hundred n = true ->
     row = Ok Num.hundred /\ badge = Some Num.hundred) /\
    (Num.le Num.zero n = true -> Num.le n Num.hundred = true ->
     Num.is_zero n = false -> row = Ok n /\ badge = Some n) /\
    (Num.is_zero n = true -> row = Ok Num.zero /\ badge = Some Num.zero).
Proof.
  intros P props name n Hl Hn row badge.
  assert (Hrow : row = Ok (Num.clamp_0_100 n)).
  { subst row. unfold ScoreBreakdown.getSafeScore.
    cbn [Js.truthy Js.typeof negb orb Js.get String.eqb Ascii.eqb Bool.eqb].
    rewrite Hl. cbn [Js.typeof String.eqb Ascii.eqb Bool.eqb].
    now rewrite Hn. }
  assert (Hbadge : badge = Some (Num.clamp_0_100 n)).
  { subst badge. unfold ATSCompatibility.normalizedScore. now rewrite Hn. }
  rewrite Hrow, Hbadge. repeat split.
  - now rewrite clamp_below.
  - now rewrite clamp_below.
  - now rewrite clamp_above.
  - now rewrite clamp_above.
  - now rewrite clamp_within.
  - now rewrite clamp_within.
  - now rewrite clamp_zero.
  - now rewrite clamp_zero.
Qed.

Lemma numeric_scores_witness :
  ScoreBreakdown.getSafeScore (P := Sample.platform [])
    (VObj [("skills", VNum (Num.of_Z 72))]) "skills" = Ok (Num.of_Z 72) /\
  ATSCompatibility.normalizedScore (VNum (Num.of_Z 72)) = Some (Num.of_Z 72).
Proof.
  apply (numeric_scores_are_clamped_not_changed (Sample.platform [])
           [("skills", VNum (Num.of_Z 72))] "skills" (n := Num.of_Z 72));
    reflexivity.
Defined.

(** X17.  The ATS badge is consistent with itself: without a score it is
    grey, says "Not available" and makes no remark; with a score it is
    green exactly when the status is Excellent, blue exactly when it is
    Good and red exactly when it is Fair or Poor, and it calls the résumé
    likely to pass screening exactly when the status is Excellent or
    Good. *)
Theorem ats_badge_is_consistent :
  forall (val : option Num.number),
    let colour := ATSCompatibility.getATSScoreColor val in
    let status := ATSCompatibility.getATSStatus val in
    let note := ATSCompatibility.screening_note val in
    match val with
    | None =>
        colour = "text-gray-500 bg-gray-100" /\ status = "Not available" /\
        note = None
    | Some _ =>
        (colour = "text-green-600 bg-green-50" <-> status = "Excellent") /\
        (colour = "text-blue-600 bg-blue-50" <-> status = "Good") /\
        (colour = "text-red-600 bg-red-50" <->
         status = "Fair" \/ status = "Poor") /\
        (note = Some "Likely to pass screening" <->
         status = "Excellent" \/ status = "Good") /\
        (note = Some "May have issues with scanners" <->
         status = "Fair" \/ status = "Poor")
    end.
Proof.
  intros [v|]; cbv zeta; [|repeat split].
  unfold ATSCompatibility.getATSScoreColor, ATSCompatibility.getATSStatus,
    ATSCompatibility.screening_note.
  pose proof (ge_80_60 v) as H86. pose proof (ge_60_40 v) as H64.
  destruct (Num.ge v (Num.of_Z 80)), (Num.ge v (Num.of_Z 60)),
    (Num.ge v (Num.of_Z 40));
    try (specialize (H86 eq_refl); discriminate H86);
    try (specialize (H64 eq_refl); discriminate H64);
    repeat split; intros H; try discriminate H; try reflexivity;
    try (destruct H as [H|H]; discriminate H);
    try (left; reflexivity); try (right; reflexivity).
Qed.

(** X18.  The two colour rules for a score agree except at their two
    thresholds: the results panel of App.jsx counts 75 as high and 50 as
    medium ([>=]), the bars of ScoreBreakdown count 75 as medium and 50 as
    low ([>]).  For every other number both put the score in the same
    band. *)
Theorem colour_rules_differ_at_thresholds_only :
  forall (P : Platform) (x : Num.number),
    let panel := AnalysisResults.score_colour (VNum x) in
    let bar := ScoreBreakdown.getBarColor x in
    (SFcompare (Num.of_Z 75) x <> Some Eq ->
     SFcompare (Num.of_Z 50) x <> Some Eq ->
     (panel = Ok "#10B981" <-> bar = "#10B981") /\
     (panel = Ok "#F59E0B" <-> bar = "#3B82F6") /\
     (panel = Ok "#EF4444" <-> bar = "#EF4444")) /\
    (SFcompare (Num.of_Z 75) x = Some Eq ->
     panel = Ok "#10B981" /\ bar = "#3B82F6") /\
    (SFcompare (Num.of_Z 50) x = Some Eq ->
     SFcompare (Num.of_Z 75) x = Some Gt ->
     panel = Ok "#F59E0B" /\ bar = "#EF4444").
Proof.
  intros P x panel bar. subst panel bar.
  unfold AnalysisResults.score_colour, ScoreBreakdown.getBarColor,
    AnalysisResults.green, AnalysisResults.amber, AnalysisResults.red,
    Num.ge, Num.gt, Num.le, Num.lt, SFleb, SFltb.
  cbn [Conv.ToNumber].
  pose proof (equal_75_above_50 x) as H75.
  destruct (SFcompare (Num.of_Z 75) x) as [[]|];
    try (rewrite (H75 eq_refl));
    destruct (SFcompare (Num.of_Z 50) x) as [[]|];
    repeat split; intros; try congruence; try discriminate.
Qed.

Lemma colour_rules_witness :
  AnalysisResults.score_colour (P := Sample.platform []) (VNum (Num.of_Z 75))
    = Ok "#10B981" /\
  ScoreBreakdown.getBarColor (Num.of_Z 75) = "#3B82F6".
Proof.
  apply (colour_rules_differ_at_thresholds_only (Sample.platform [])
           (Num.of_Z 75)).
  reflexivity.
Defined.

Lemma ats_badge_witness :
  ATSCompatibility.getATSStatus (Some (Num.of_Z 85)) = "Excellent".
Proof.
  apply (proj1 (ats_badge_is_consistent (Some (Num.of_Z 85)))).
  reflexivity.
Defined.

(** X19.  A response whose [missingKeywords] is [null] passes the
    [matchPercentage] test and is stored without an error message, but
    the results panel cannot render it: the destructuring default covers
    an absent field, not [null], and reading [length] of [null] throws a
    TypeError. *)
Theorem null_missingKeywords_breaks_the_panel :
  forall (P : Platform) (w w2 : App.World) (key txt : string)
         (envelope : JValue) (props : list (string * JValue))
         (n : Num.number),
    App.resumeText (App.state w) <> "" ->
    App.jobDescription (App.state w) <> "" ->
    VITE_GEMINI_API_KEY = Some key -> key <> "" ->
    App.fetchWithRetry (App.apiUrl key)
      (App.request (App.resumeText (App.state w))
                   (App.jobDescription (App.state w)))
      App.default_retries (started w) = (Ok envelope, w2) ->
    nested_text envelope = VStr txt -> txt <> "" ->
    JSON_parse txt = Ok (VObj props) ->
    Js.lookup "matchPercentage" props = VNum n ->
    Js.lookup "missingKeywords" props = VNull ->
    App.analysis (App.state (exec App.analyzeResume w)) = VObj props /\
    App.apiError (App.state (exec App.analyzeResume w)) = "" /\
    AnalysisResults.of_state (App.state (exec App.analyzeResume w))
    = Throw (mkExn "TypeError" "Cannot read properties of null (reading 'length')").
Proof.
  intros P w w2 key txt envelope props n Hr Hj Hk Hne Hf Ht Htne Hp Hm Hnull.
  assert (Hx : App.extractJSON envelope = Ok (VObj props)).
  { rewrite (extractJSON_text envelope Ht Htne), Hp. reflexivity. }
  rewrite (analyzeResume_after_fetch w Hr Hj Hk Hne Hf), Hx.
  cbv zeta. cbn [Js.get]. rewrite Hm.
  cbn [Js.typeof String.eqb Ascii.eqb Bool.eqb App.analysis App.apiError].
  repeat split.
  unfold AnalysisResults.of_state, AnalysisResults.AnalysisResults.
  cbn [App.analysis App.loading App.resumeText App.jobDescription].
  rewrite (is_empty_false Hr), (is_empty_false Hj).
  cbn [negb andb Js.truthy Js.or_else Js.get]. rewrite Hnull. reflexivity.
Qed.

Lemma null_missingKeywords_witness :
  AnalysisResults.of_state
    (P := Sample.answering Sample.text_null_keywords
            (VObj Sample.obj_null_keywords))
    (App.state
       (exec (App.analyzeResume
                (P := Sample.answering Sample.text_null_keywords
                        (VObj Sample.obj_null_keywords)))
             Sample.app0))
  = Throw (mkExn "TypeError" "Cannot read properties of null (reading 'length')").
Proof.
  eapply (null_missingKeywords_breaks_the_panel
            (Sample.answering Sample.text_null_keywords
               (VObj Sample.obj_null_keywords))
            Sample.app0 (key := "key") (txt := Sample.text_null_keywords)
            (props := Sample.obj_null_keywords)).
  - discriminate.
  - discriminate.
  - reflexivity.
  - discriminate.
  - reflexivity.
  - reflexivity.
  - discriminate.
  - reflexivity.
  - reflexivity.
  - reflexivity.
Defined.

(** X20.  New résumé text does not clear a stored analysis.  After the
    text was cleared (a failed upload signals the empty string) the panel
    waits for input and the Analyze button is disabled; as soon as any
    text arrives that is not empty, the panel shows the analysis stored
    before, made for the earlier text, exactly as it did before. *)
Theorem stored_analysis_survives_new_text :
  forall (P : Platform) (s : App.State) (t : string),
    App.loading s = false ->
    App.jobDescription s <> "" ->
    AnalysisResults.of_state (App.onTextExtracted "" s)
      = Ok AnalysisResults.AwaitingInput /\
    App.analyze_disabled (App.onTextExtracted "" s) = true /\
    App.analysis (App.onTextExtracted t s) = App.analysis s /\
    (t <> "" ->
     AnalysisResults.of_state (App.onTextExtracted t (App.onTextExtracted "" s))
     = AnalysisResults.AnalysisResults (App.analysis s) false true /\
     App.analyze_disabled (App.onTextExtracted t (App.onTextExtracted "" s))
     = false).
Proof.
  intros P s t Hl Hj. unfold AnalysisResults.of_state, App.analyze_disabled.
  cbn [App.onTextExtracted App.setResumeText App.setOriginalResumeText
       App.analysis App.loading App.resumeText App.jobDescription].
  rewrite Hl, (is_empty_false Hj).
  split; [reflexivity|]. split; [reflexivity|]. split; [reflexivity|].
  intros Ht. rewrite (is_empty_false Ht). split; reflexivity.
Qed.

Lemma stored_analysis_witness :
  AnalysisResults.of_state (P := Sample.platform [])
    (App.onTextExtracted ""
       (App.mkState "my resume" "the job" Sample.obj_72 false "" "my resume"))
  = Ok AnalysisResults.AwaitingInput.
Proof.
  apply (stored_analysis_survives_new_text (Sample.platform [])
           (App.mkState "my resume" "the job" Sample.obj_72 false "" "my resume")
           "x").
  - reflexivity.
  - discriminate.
Defined.

(* ================================================================== *)
(** ** The résumé editor *)

Section ReplaceFacts.

Lemma substring_0_app (a b : string) :
  String.substring 0 (String.length a) (a ++ b) = a.
Proof. induction a as [|c a IH]; simpl; [now destruct b | now rewrite IH]. Qed.

(** A replacement text without a dollar sign stands for itself. *)
Lemma expand_plain (template matched before after : string) :
  no_dollar template = true ->
  Str.expand template matched before after = template.
Proof.
  induction template as [|a rest IH]; intros H; [reflexivity|].
  cbn [no_dollar] in H. apply andb_prop in H. destruct H as [Ha Hrest].
  cbn [Str.expand]. destruct rest as [|b rest']; [reflexivity|].
  apply negb_true_iff in Ha. rewrite Ha. now rewrite (IH Hrest).
Qed.

(** Replacing where the pattern first occurs. *)
Lemma replace_first (pre pattern post template : string) :
  (forall p, p < String.length pre ->
     String.substring p (String.length pattern) (pre ++ pattern ++ post)
     <> pattern) ->
  Str.replace (pre ++ pattern ++ post) pattern template
  = pre ++ Str.expand template pattern pre post ++ post.
Proof.
  intros Hfirst. unfold Str.replace, Str.indexOf.
  assert (Hat : String.substring (String.length pre) (String.length pattern)
                  (pre ++ pattern ++ post) = pattern).
  { rewrite <- (Nat.add_0_r (String.length pre)), substring_skip.
    apply substring_0_app. }
  destruct (String.index 0 pattern (pre ++ pattern ++ post)) as [m|] eqn:E.
  - assert (Hm : m = String.length pre).
    { destruct (Nat.lt_trichotomy m (String.length pre)) as [Hlt|[Heq|Hgt]].
      - destruct (Hfirst m Hlt). exact (String.index_correct1 _ _ _ _ E).
      - exact Heq.
      - destruct (String.index_correct2 _ _ _ _ E (String.length pre)); auto; lia. }
    subst m.
    assert (Hafter :
              String.substring (String.length pre + String.length pattern)
                (String.length (pre ++ pattern ++ post)
                 - (String.length pre + String.length pattern))
                (pre ++ pattern ++ post) = post).
    { replace (String.length (pre ++ pattern ++ post)
               - (String.length pre + String.length pattern))
        with (String.length post) by (rewrite !str_length_app; lia).
      rewrite <- app_assoc_s, <- str_length_app.
      rewrite <- (Nat.add_0_r (String.length (pre ++ pattern))).
      rewrite substring_skip. apply substring_all. }
    rewrite Hafter, substring_0_app. reflexivity.
  - destruct pattern as [|c pattern'].
    + destruct pre, post; discriminate E.
    + destruct (String.index_correct3 0 (String.length pre) _ _ E); auto;
        [discriminate | lia].
Qed.

End ReplaceFacts.

(** X21.  Applying a suggestion whose replacement text has no dollar sign
    replaces the first occurrence of its [fromText] in the editor text by
    its [toText] and nothing else, records the suggestion as applied and
    closes the active suggestion. *)
Theorem applySuggestion_replaces_first_occurrence :
  forall (sg : ResumeEditor.Suggestion) (s : ResumeEditor.State)
         (pre post : string),
    ResumeEditor.fromText sg <> "" ->
    no_dollar (ResumeEditor.toText sg) = true ->
    ResumeEditor.text s = pre ++ ResumeEditor.fromText sg ++ post ->
    (forall p, p < String.length pre ->
       String.substring p (String.length (ResumeEditor.fromText sg))
         (ResumeEditor.text s) <> ResumeEditor.fromText sg) ->
    ResumeEditor.applySuggestion (Some sg) s
    = ResumeEditor.mkState (pre ++ ResumeEditor.toText sg ++ post) None
        (ResumeEditor.appliedSuggestions s ++ [ResumeEditor.id sg]).
Proof.
  intros sg s pre post Hne Hplain Htext Hfirst.
  unfold ResumeEditor.applySuggestion.
  destruct (ResumeEditor.fromText sg) as [|c from'] eqn:Ef; [congruence|].
  cbn [Str.is_empty]. rewrite Htext in *.
  rewrite (@replace_first pre (String c from') post
             (ResumeEditor.toText sg) Hfirst).
  now rewrite (@expand_plain (ResumeEditor.toText sg) (String c from')
                 pre post Hplain).
Qed.

Lemma applySuggestion_replaces_witness :
  ResumeEditor.applySuggestion
    (Some (ResumeEditor.mkSuggestion "skills-0" "skills" "Java" "Rocq" "f"))
    (ResumeEditor.mkState "I know Java and JavaScript" None [])
  = ResumeEditor.mkState "I know Rocq and JavaScript" None ["skills-0"].
Proof.
  apply (applySuggestion_replaces_first_occurrence
           (ResumeEditor.mkSuggestion "skills-0" "skills" "Java" "Rocq" "f")
           (ResumeEditor.mkState "I know Java and JavaScript" None [])
           "I know " " and JavaScript").
  - discriminate.
  - reflexivity.
  - reflexivity.
  - intros p Hp. simpl in Hp.
    do 7 (destruct p as [|p]; [discriminate|]). lia.
Defined.

(** X22.  A suggestion whose [fromText] does not occur in the editor text
    leaves the text as it is and is recorded as applied all the same, so
    that its Apply button disappears; a missing suggestion or one with an
    empty [fromText] changes nothing. *)
Theorem applySuggestion_without_occurrence :
  forall (sg : ResumeEditor.Suggestion) (s : ResumeEditor.State),
    ResumeEditor.fromText sg <> "" ->
    (forall p, String.substring p (String.length (ResumeEditor.fromText sg))
                 (ResumeEditor.text s) <> ResumeEditor.fromText sg) ->
    ResumeEditor.applySuggestion (Some sg) s
    = ResumeEditor.mkState (ResumeEditor.text s) None
        (ResumeEditor.appliedSuggestions s ++ [ResumeEditor.id sg]) /\
    ResumeEditor.isApplied sg (ResumeEditor.applySuggestion (Some sg) s) = true /\
    ResumeEditor.applySuggestion None s = s.
Proof.
  intros sg s Hne Hno.
  assert (E : ResumeEditor.applySuggestion (Some sg) s
              = ResumeEditor.mkState (ResumeEditor.text s) None
                  (ResumeEditor.appliedSuggestions s ++ [ResumeEditor.id sg])).
  { unfold ResumeEditor.applySuggestion.
    destruct (ResumeEditor.fromText sg) as [|c from'] eqn:Ef; [congruence|].
    cbn [Str.is_empty]. unfold Str.replace, Str.indexOf.
    destruct (String.index 0 (String c from') (ResumeEditor.text s)) as [m|] eqn:Ei;
      [|reflexivity].
    destruct (Hno m). exact (String.index_correct1 _ _ _ _ Ei). }
  split; [exact E|]. split; [|reflexivity].
  rewrite E. unfold ResumeEditor.isApplied.
  cbn [ResumeEditor.appliedSuggestions ResumeEditor.id].
  rewrite existsb_app. cbn [existsb]. rewrite String.eqb_refl.
  now rewrite orb_true_r.
Qed.

Lemma applySuggestion_without_occurrence_witness :
  ResumeEditor.applySuggestion
    (Some (ResumeEditor.mkSuggestion "skills-0" "skills" "Java" "Rocq" "f"))
    (ResumeEditor.mkState "Go" None [])
  = ResumeEditor.mkState "Go" None ["skills-0"].
Proof.
  apply (applySuggestion_without_occurrence
           (ResumeEditor.mkSuggestion "skills-0" "skills" "Java" "Rocq" "f")
           (ResumeEditor.mkState "Go" None [])).
  - discriminate.
  - intros p. simpl.
    destruct p as [|[|[|p]]]; discriminate.
Defined.
